(** * IotHubConnectionConfig: create, validate, convertToEventHubConnectionConfig

    A shallow embedding of [src/lib/connectionConfig/iothubConnectionConfig.ts].

    The TypeScript namespace has three functions.  They work on plain
    JavaScript records that are passed by reference and, in [validate],
    mutated in place; errors are thrown.  The embedding therefore uses

    - a type of JavaScript values: [prim] for the primitive values a field
      of a descriptor holds ([undefined], [null], booleans, integer
      numbers, strings; the interface declares every field a string, and
      callers in JavaScript pass other primitives), and [value] for an
      argument, which may also be a reference to a record;
    - a store [heap] of records, addressed by locations, so that the
      caller sees what [validate] assigns; and
    - a state-and-exception monad [M] in which a thrown error keeps the
      store as it was at the point of the throw.

    The helpers the file imports from [../errors] and [../util/utils] and
    the factory of the sibling configuration are not among the sources.
    The two throwing helpers are modelled from the spec; the tokenizer and
    the factory are parameters of the functions that call them, with an
    instance of each, modelled from the spec, for the examples. *)

From Stdlib Require Import ZArith String Ascii DecimalString.
From stdpp Require Import gmap strings list fin_maps.

Local Open Scope string_scope.

(* ------------------------------------------------------------------ *)
(** ** JavaScript values *)

(** Primitive values.  [PNum n] is the number whose value is the integer
    [n]; the numbers meant are those in the range where [Number::toString]
    prints the plain decimal numeral (below 10^21 in absolute value). *)
Inductive prim : Type :=
  | PUndefined
  | PNull
  | PBool (b : bool)
  | PNum (n : Z)
  | PString (s : string).

Definition loc := positive.

(** A value is a primitive or a reference to a record in the store. *)
Inductive value : Type :=
  | VPrim (p : prim)
  | VObject (l : loc).

Coercion VPrim : prim >-> value.

#[global] Instance prim_eq_dec : EqDecision prim.
Proof. solve_decision. Defined.

#[global] Instance value_eq_dec : EqDecision value.
Proof. solve_decision. Defined.

(** A record maps property names to the primitive values they hold; a name
    that is not in the map is an absent property. *)
Abbreviation object := (gmap string prim).

(** The store.  A location outside its domain has never been written and
    denotes the empty record [{}], which is what [!!!] returns for it. *)
Abbreviation heap := (gmap loc object).

(** [typeof v] *)
Definition typeof (v : value) : string :=
  match v with
  | VPrim PUndefined => "undefined"
  | VPrim PNull => "object"
  | VPrim (PBool _) => "boolean"
  | VPrim (PNum _) => "number"
  | VPrim (PString _) => "string"
  | VObject _ => "object"
  end.

(** [String(p)] on a primitive. *)
Definition ToString (p : prim) : string :=
  match p with
  | PUndefined => "undefined"
  | PNull => "null"
  | PBool true => "true"
  | PBool false => "false"
  | PNum n => NilZero.string_of_int (Z.to_int n)
  | PString s => s
  end.

(** [!p] is [negb (truthy p)]. *)
Definition truthy (p : prim) : bool :=
  match p with
  | PUndefined | PNull => false
  | PBool b => b
  | PNum n => negb (n =? 0)%Z
  | PString s => negb (String.eqb s "")
  end.

(** [p != undefined] (loose inequality: false for [undefined] and [null],
    true for every other value). *)
Definition neq_undefined (p : prim) : bool :=
  match p with
  | PUndefined | PNull => false
  | _ => true
  end.

(** [s.split(sep)] for a one-character separator. *)
Fixpoint split (sep : ascii) (s : string) : list string :=
  match s with
  | EmptyString => [EmptyString]
  | String c s' =>
      if Ascii.eqb c sep then EmptyString :: split sep s'
      else match split sep s' with
           | x :: xs => String c x :: xs
           | [] => [String c EmptyString]
           end
  end.

(** [xs[i]] on an array of strings: [undefined] out of range. *)
Definition element (xs : list string) (i : nat) : prim :=
  from_option PString PUndefined (xs !! i).

(** [o.k] on a record: [undefined] when the property is absent. *)
Definition prop (o : object) (k : string) : prim :=
  default PUndefined (o !! k).

(* ------------------------------------------------------------------ *)
(** ** Errors and the monad *)

(** The two error kinds of the module carry the name of the offending
    parameter, the first argument the source passes to the helper that
    throws.  [NativeTypeError] is the [TypeError] that the language itself
    throws on a property access on [undefined] or [null] and on a property
    assignment to a primitive in strict mode. *)
Inductive error : Type :=
  | MissingParameterError (parameterName : string)
  | TypeMismatchError (parameterName expectedType : string)
  | NativeTypeError.

#[global] Instance error_eq_dec : EqDecision error.
Proof. solve_decision. Defined.

Inductive error_kind : Type := KMissing | KTypeMismatch | KNative.

Definition kind_of (e : error) : error_kind :=
  match e with
  | MissingParameterError _ => KMissing
  | TypeMismatchError _ _ => KTypeMismatch
  | NativeTypeError => KNative
  end.

Inductive result (A : Type) : Type :=
  | Ok (a : A)
  | Throw (e : error).

Arguments Ok {A} a.
Arguments Throw {A} e.

Definition M (A : Type) : Type := heap → result A * heap.

Definition throw {A} (e : error) : M A := λ h, (Throw e, h).

(** Sequencing: a throw skips the rest and keeps the store of the throw.
    The instances give [M] the notations [x ← m; k] and [m;; k]. *)
#[global] Instance M_ret : MRet M := λ A (a : A) h, (Ok a, h).

#[global] Instance M_bind : MBind M := λ A B (f : A → M B) (m : M A) h,
  match m h with
  | (Ok a, h') => f a h'
  | (Throw e, h') => (Throw e, h')
  end.

(** [v.k]: reads the record a reference points to; on [undefined] and
    [null] the access throws; on the other primitives it yields
    [undefined] (none of the names read in this module is a member of the
    Number, String or Boolean prototype). *)
Definition getProp (v : value) (k : string) : M prim :=
  match v with
  | VObject l => λ h, (Ok (prop (h !!! l) k), h)
  | VPrim PUndefined | VPrim PNull => throw NativeTypeError
  | VPrim _ => mret PUndefined
  end.

(** [v.k = x]: updates the record in place; on a primitive the assignment
    throws (the module is compiled in strict mode). *)
Definition setProp (v : value) (k : string) (x : prim) : M unit :=
  match v with
  | VObject l => λ h, (Ok tt, <[l := <[k := x]> (h !!! l)]> h)
  | VPrim _ => throw NativeTypeError
  end.

(** An object literal: a new record at a location not in use. *)
Definition alloc (o : object) : M value :=
  λ h, let l := fresh (dom h) in (Ok (VObject l), <[l := o]> h).

(* ------------------------------------------------------------------ *)
(** ** The helpers of [../errors] and [../util/utils] *)

(** Modelled from the spec: [throwTypeErrorIfParameterMissing] of
    [../errors] is not among the sources.  The spec: "MissingParameterError
    - a required value (parameter or required field) was null, undefined,
    or empty".  [isMissing] is that test, with "empty" read as the empty
    string. *)
Definition isMissing (v : value) : bool :=
  match v with
  | VPrim PUndefined | VPrim PNull => true
  | VPrim (PString s) => String.eqb s ""
  | _ => false
  end.

(** Modelled from the spec: [throwTypeErrorIfParameterMissing] of
    [../errors], the "fail if parameter missing" primitive. *)
Definition throwTypeErrorIfParameterMissing
    (parameterName : string) (parameterValue : value) : M unit :=
  if isMissing parameterValue
  then throw (MissingParameterError parameterName)
  else mret tt.

(** Modelled from the spec: [throwTypeErrorIfParameterTypeMismatch] of
    [../errors], the "fail if parameter type mismatch" primitive:
    "TypeMismatchError - a value expected to be an object-shaped record was
    not".  The source passes the expected type as a [typeof] name. *)
Definition throwTypeErrorIfParameterTypeMismatch
    (parameterName : string) (parameterValue : value)
    (expectedType : string) : M unit :=
  if String.eqb (typeof parameterValue) expectedType
  then mret tt
  else throw (TypeMismatchError parameterName expectedType).

(** The result of the tokenizer: a flat mapping of keys to strings. *)
Abbreviation ParsedOutput := (gmap string string).

(** [parsedCS.k]: [undefined] when the key was not in the string. *)
Definition parsedProp (parsedCS : ParsedOutput) (k : string) : prim :=
  from_option PString PUndefined (parsedCS !! k).

(** Modelled from the spec: [parseConnectionString] of [../util/utils] is
    not among the sources.  The spec: "a semicolon-delimited Key=Value
    string", "parse(raw: string) -> mapping<string,string>".  Each part is
    cut at its first "="; a part without "=" is not a pair and adds
    nothing.  The functions of the module take the tokenizer as a
    parameter; this one instantiates it in the examples. *)
Definition parsePart (part : string) (acc : ParsedOutput) : ParsedOutput :=
  match split "=" part with
  | key :: v :: vs => <[key := String.concat "=" (v :: vs)]> acc
  | _ => acc
  end.

Definition parseConnectionString (connectionString : string) : ParsedOutput :=
  foldl (λ acc part, parsePart part acc) ∅ (split ";" connectionString).

(** Modelled from the spec: [EventHubConnectionConfig.createFromConnectionConfig]
    is not among the sources.  The spec gives its signature only,
    "createFromDescriptor(related) -> RelatedDescriptor", the "final object
    construction"; this instance hands back the record it is given.  The
    conversion takes the factory as a parameter. *)
Definition createFromConnectionConfig (config : value) : M value :=
  mret config.

(* ------------------------------------------------------------------ *)
(** ** The namespace [IotHubConnectionConfig] *)

Module IotHubConnectionConfig.

Section WithCollaborators.

(** The tokenizer of [../util/utils]. *)
Variable parse : string → ParsedOutput.

(** The factory of the sibling configuration. *)
Variable factory : value → M value.

(** [create(connectionString, path?)]; an omitted [path] is [undefined].
    In the condition [parsedCS && parsedCS.HostName] the tokenizer's result
    is an object, hence truthy, and the condition is the truthiness of
    [parsedCS.HostName]: the key is there and its string is not empty. *)
Definition create (connectionString path : prim) : M value :=
  throwTypeErrorIfParameterMissing "connectionString" connectionString;;
  let connectionString := ToString connectionString in
  let parsedCS := parse connectionString in
  let path := if negb (truthy path) then PString "messages/events" else path in
  alloc (list_to_map
    [ ("connectionString", PString connectionString);
      ("hostName", parsedProp parsedCS "HostName");
      ("host",
        match parsedCS !! "HostName" with
        | Some HostName =>
            if truthy (PString HostName)
            then element (split "." HostName) 0
            else PString ""
        | None => PString ""
        end);
      ("entityPath", path);
      ("sharedAccessKeyName", parsedProp parsedCS "SharedAccessKeyName");
      ("sharedAccessKey", parsedProp parsedCS "SharedAccessKey");
      ("deviceId", parsedProp parsedCS "DeviceId") ]).

(** [validate(config)] *)
Definition validate (config : value) : M unit :=
  throwTypeErrorIfParameterMissing "config" config;;
  throwTypeErrorIfParameterTypeMismatch "config" config "object";;

  hostName ← getProp config "hostName";
  throwTypeErrorIfParameterMissing "hostName" (VPrim hostName);;
  hostName ← getProp config "hostName";
  setProp config "hostName" (PString (ToString hostName));;

  entityPath ← getProp config "entityPath";
  throwTypeErrorIfParameterMissing "entityPath" (VPrim entityPath);;
  entityPath ← getProp config "entityPath";
  setProp config "entityPath" (PString (ToString entityPath));;

  sharedAccessKeyName ← getProp config "sharedAccessKeyName";
  throwTypeErrorIfParameterMissing "sharedAccessKeyName" (VPrim sharedAccessKeyName);;
  sharedAccessKeyName ← getProp config "sharedAccessKeyName";
  setProp config "sharedAccessKeyName" (PString (ToString sharedAccessKeyName));;

  sharedAccessKey ← getProp config "sharedAccessKey";
  throwTypeErrorIfParameterMissing "sharedAccessKey" (VPrim sharedAccessKey);;
  sharedAccessKey ← getProp config "sharedAccessKey";
  setProp config "sharedAccessKey" (PString (ToString sharedAccessKey));;

  deviceId ← getProp config "deviceId";
  if neq_undefined deviceId then
    deviceId ← getProp config "deviceId";
    setProp config "deviceId" (PString (ToString deviceId))
  else mret tt.

(** [convertToEventHubConnectionConfig(iotHubConfig)] *)
Definition convertToEventHubConnectionConfig (iotHubConfig : value) : M value :=
  throwTypeErrorIfParameterMissing "iotHubConfig" iotHubConfig;;
  throwTypeErrorIfParameterTypeMismatch "iotHubConfig" iotHubConfig "object";;

  validate iotHubConfig;;
  sharedAccessKey ← getProp iotHubConfig "sharedAccessKey";
  sharedAccessKeyName ← getProp iotHubConfig "sharedAccessKeyName";
  entityPath ← getProp iotHubConfig "entityPath";
  host ← getProp iotHubConfig "hostName";
  hostName ← getProp iotHubConfig "hostName";
  connectionString ← getProp iotHubConfig "connectionString";
  config ← alloc (list_to_map
    [ ("sharedAccessKey", sharedAccessKey);
      ("sharedAccessKeyName", sharedAccessKeyName);
      ("entityPath", entityPath);
      ("host", host);
      ("endpoint", PString ("sb://" ++ ToString hostName ++ "/"));
      ("connectionString", connectionString) ]);
  factory config.

End WithCollaborators.

End IotHubConnectionConfig.

Import IotHubConnectionConfig.

(* ------------------------------------------------------------------ *)
(** ** Vocabulary of the statements *)

(** The required fields, in the order [validate] checks them. *)
Definition requiredFields : list string :=
  ["hostName"; "entityPath"; "sharedAccessKeyName"; "sharedAccessKey"].

(** The fields [validate] assigns to. *)
Definition coercedFields : list string := requiredFields ++ ["deviceId"].

(** The record [o] after [o.k = String(o.k)]. *)
Definition coerce (k : string) (o : object) : object :=
  <[k := PString (ToString (prop o k))]> o.

(** A property holds a non-empty string. *)
Definition nonEmptyString (p : prim) : bool :=
  match p with
  | PString s => negb (String.eqb s "")
  | _ => false
  end.

(** A descriptor that is valid and coerced already: the required fields
    hold non-empty strings, and [deviceId] holds a string unless it is
    absent, [undefined] or [null]. *)
Definition validCoerced (o : object) : bool :=
  forallb (λ k, nonEmptyString (prop o k)) requiredFields
  && match prop o "deviceId" with
     | PUndefined | PNull | PString _ => true
     | _ => false
     end.

(** The record the conversion passes to the factory, built from the
    validated descriptor [o]. *)
Definition connectionConfigOf (o : object) : object :=
  list_to_map
    [ ("sharedAccessKey", prop o "sharedAccessKey");
      ("sharedAccessKeyName", prop o "sharedAccessKeyName");
      ("entityPath", prop o "entityPath");
      ("host", prop o "hostName");
      ("endpoint", PString ("sb://" ++ ToString (prop o "hostName") ++ "/"));
      ("connectionString", prop o "connectionString") ].

(** The record [create] allocates. *)
Definition createdConfig (parse : string → ParsedOutput)
    (connectionString path : prim) : object :=
  let cs := ToString connectionString in
  list_to_map
    [ ("connectionString", PString cs);
      ("hostName", parsedProp (parse cs) "HostName");
      ("host",
        match parse cs !! "HostName" with
        | Some HostName =>
            if truthy (PString HostName)
            then element (split "." HostName) 0
            else PString ""
        | None => PString ""
        end);
      ("entityPath",
        if negb (truthy path) then PString "messages/events" else path);
      ("sharedAccessKeyName", parsedProp (parse cs) "SharedAccessKeyName");
      ("sharedAccessKey", parsedProp (parse cs) "SharedAccessKey");
      ("deviceId", parsedProp (parse cs) "DeviceId") ].

(** The string has no ["."] in it. *)
Definition noDot (s : string) : Prop :=
  ¬ In "."%char (list_ascii_of_string s).

(** A descriptor used in the examples: [{hostName: 1, entityPath: "p",
    sharedAccessKeyName: "n", sharedAccessKey: "k"}] at location 1. *)
Definition numericHost : heap :=
  {[ 1%positive :=
       list_to_map
         [ ("hostName", PNum 1); ("entityPath", PString "p");
           ("sharedAccessKeyName", PString "n");
           ("sharedAccessKey", PString "k") ] ]}.

(** [{}] at location 1. *)
Definition emptyRecord : heap := {[ 1%positive := ∅ ]}.

(** [{hostName: 1}] at location 1. *)
Definition hostOnly : heap :=
  {[ 1%positive := {[ "hostName" := PNum 1 ]} ]}.

(** [{hostName: "foo.bar", entityPath: "p", sharedAccessKeyName: "n",
    sharedAccessKey: "k", connectionString: "cs"}] at location 1. *)
Definition fooBar : heap :=
  {[ 1%positive :=
       list_to_map
         [ ("hostName", PString "foo.bar"); ("entityPath", PString "p");
           ("sharedAccessKeyName", PString "n");
           ("sharedAccessKey", PString "k");
           ("connectionString", PString "cs") ] ]}.

(** [numericHost] after [validate]: [hostName] holds the string ["1"]. *)
Definition numericHostValidated : heap :=
  {[ 1%positive :=
       list_to_map
         [ ("hostName", PString "1"); ("entityPath", PString "p");
           ("sharedAccessKeyName", PString "n");
           ("sharedAccessKey", PString "k") ] ]}.

(** [hostOnly] after the failing [validate]: [{hostName: "1"}]. *)
Definition hostOnlyCoerced : heap :=
  {[ 1%positive := {[ "hostName" := PString "1" ]} ]}.

(** [o'] is [o] with some of the five fields coerced: the same
    properties, each holding what it held or, for one of the five fields
    that was neither [undefined] nor [null], the string of what it held. *)
Definition coercionOf (o o' : object) : Prop :=
  dom o' = dom o
  ∧ ∀ k, o' !! k = o !! k
         ∨ (k ∈ coercedFields
            ∧ neq_undefined (prop o k) = true
            ∧ o' !! k = Some (PString (ToString (prop o k)))).

(* ------------------------------------------------------------------ *)
(** ** Basic facts *)

Lemma isMissing_spec (v : value) :
  isMissing v = true ↔
  v = VPrim PUndefined ∨ v = VPrim PNull ∨ v = VPrim (PString "").
Proof.
  destruct v as [[| |b|n|s]|l]; simpl.
  5: destruct (String.eqb_spec s "") as [->|Hs].
  all: split; [try (by auto) | intros [?|[?|?]]; congruence].
Qed.

Lemma ToString_not_empty (p : prim) :
  isMissing (VPrim p) = false → nonEmptyString (PString (ToString p)) = true.
Proof.
  destruct p as [| |[]|n|s]; simpl; try done.
  - intros _. destruct (Z.to_int n) as [d|d]; [destruct d|]; done.
  - by intros ->.
Qed.

Lemma nonEmptyString_not_missing (p : prim) :
  nonEmptyString p = true → isMissing (VPrim p) = false.
Proof. destruct p; simpl; try done. by destruct (String.eqb s ""). Qed.

Lemma nonEmptyString_inv (p : prim) :
  nonEmptyString p = true → ∃ s, p = PString s.
Proof. destruct p; simpl; try done. eauto. Qed.

Lemma prop_coerce_eq (k : string) (o : object) :
  prop (coerce k o) k = PString (ToString (prop o k)).
Proof. unfold prop at 1, coerce. by rewrite lookup_insert_eq. Qed.

Lemma prop_coerce_ne (k k' : string) (o : object) :
  k ≠ k' → prop (coerce k o) k' = prop o k'.
Proof. intros. unfold prop, coerce. by rewrite lookup_insert_ne. Qed.

Lemma lookup_coerce_eq (k : string) (o : object) :
  coerce k o !! k = Some (PString (ToString (prop o k))).
Proof. apply lookup_insert_eq. Qed.

Lemma lookup_coerce_ne (k k' : string) (o : object) :
  k ≠ k' → coerce k o !! k' = o !! k'.
Proof. intros. by apply lookup_insert_ne. Qed.

(** Coercing a property that holds a string already changes nothing. *)
Lemma coerce_string (k s : string) (o : object) :
  o !! k = Some (PString s) → coerce k o = o.
Proof.
  intros Hk. unfold coerce, prop. rewrite Hk. simpl. by apply insert_id.
Qed.

(** Writing back the record a location holds changes nothing, provided
    the record is not the empty one of an unwritten location. *)
Lemma heap_insert_id (l : loc) (k : string) (x : prim) (h : heap) :
  (h !!! l) !! k = Some x → <[l := h !!! l]> h = h.
Proof.
  intros Hk. apply insert_id.
  rewrite lookup_total_alt in Hk |- *.
  destruct (h !! l); [done|]. simpl in Hk. by rewrite lookup_empty in Hk.
Qed.

(** One required field: the check, then the assignment. *)
Lemma field_step (l : loc) (f : string) (k : M unit) (h : heap) :
  (x ← getProp (VObject l) f;
   throwTypeErrorIfParameterMissing f (VPrim x);;
   y ← getProp (VObject l) f;
   setProp (VObject l) f (PString (ToString y));;
   k) h
  = if isMissing (VPrim (prop (h !!! l) f))
    then (Throw (MissingParameterError f), h)
    else k (<[l := coerce f (h !!! l)]> h).
Proof.
  unfold mbind, M_bind, getProp, setProp, throwTypeErrorIfParameterMissing.
  destruct (isMissing (VPrim (prop (h !!! l) f))); reflexivity.
Qed.

(** [validate] on a record, as a cascade over the required fields. *)
Lemma validate_object (l : loc) (h : heap) :
  validate (VObject l) h =
    let o0 := h !!! l in
    if isMissing (VPrim (prop o0 "hostName"))
    then (Throw (MissingParameterError "hostName"), h) else
    let o1 := coerce "hostName" o0 in
    if isMissing (VPrim (prop o1 "entityPath"))
    then (Throw (MissingParameterError "entityPath"), <[l := o1]> h) else
    let o2 := coerce "entityPath" o1 in
    if isMissing (VPrim (prop o2 "sharedAccessKeyName"))
    then (Throw (MissingParameterError "sharedAccessKeyName"), <[l := o2]> h) else
    let o3 := coerce "sharedAccessKeyName" o2 in
    if isMissing (VPrim (prop o3 "sharedAccessKey"))
    then (Throw (MissingParameterError "sharedAccessKey"), <[l := o3]> h) else
    let o4 := coerce "sharedAccessKey" o3 in
    if neq_undefined (prop o4 "deviceId")
    then (Ok tt, <[l := coerce "deviceId" o4]> h)
    else (Ok tt, <[l := o4]> h).
Proof.
  unfold validate.
  change ((throwTypeErrorIfParameterMissing "config" (VObject l);;
           throwTypeErrorIfParameterTypeMismatch "config" (VObject l) "object";;
           ?k) h) with (k h).
  rewrite field_step. cbv zeta.
  destruct (isMissing _); [done|].
  rewrite field_step, lookup_total_insert_eq.
  destruct (isMissing _); [done|].
  rewrite field_step, lookup_total_insert_eq, insert_insert_eq.
  destruct (isMissing _); [done|].
  rewrite field_step, lookup_total_insert_eq, insert_insert_eq.
  destruct (isMissing _); [done|].
  unfold mbind, M_bind, getProp, setProp.
  rewrite lookup_total_insert_eq.
  destruct (neq_undefined _); unfold mret, M_ret;
    rewrite ?lookup_total_insert_eq, !insert_insert_eq; done.
Qed.

(** The same cascade with every test read on the record as it was
    passed in: an assignment to one field does not change another. *)
Lemma validate_cascade (l : loc) (h : heap) :
  validate (VObject l) h =
    let o0 := h !!! l in
    let o1 := coerce "hostName" o0 in
    let o2 := coerce "entityPath" o1 in
    let o3 := coerce "sharedAccessKeyName" o2 in
    let o4 := coerce "sharedAccessKey" o3 in
    if isMissing (VPrim (prop o0 "hostName"))
    then (Throw (MissingParameterError "hostName"), h)
    else if isMissing (VPrim (prop o0 "entityPath"))
    then (Throw (MissingParameterError "entityPath"), <[l := o1]> h)
    else if isMissing (VPrim (prop o0 "sharedAccessKeyName"))
    then (Throw (MissingParameterError "sharedAccessKeyName"), <[l := o2]> h)
    else if isMissing (VPrim (prop o0 "sharedAccessKey"))
    then (Throw (MissingParameterError "sharedAccessKey"), <[l := o3]> h)
    else if neq_undefined (prop o0 "deviceId")
    then (Ok tt, <[l := coerce "deviceId" o4]> h)
    else (Ok tt, <[l := o4]> h).
Proof.
  rewrite validate_object. cbv zeta.
  by rewrite !prop_coerce_ne.
Qed.

(** On a primitive argument the two guards decide, and nothing is
    touched. *)
Lemma validate_prim (p : prim) (h : heap) :
  validate (VPrim p) h =
    (Throw (if isMissing (VPrim p)
            then MissingParameterError "config"
            else TypeMismatchError "config" "object"), h).
Proof.
  destruct p as [| |b|n|s]; try reflexivity.
  unfold validate, mbind, M_bind, throwTypeErrorIfParameterMissing. simpl.
  by destruct (String.eqb s "").
Qed.

Lemma convert_prim (factory : value → M value) (p : prim) (h : heap) :
  convertToEventHubConnectionConfig factory (VPrim p) h =
    (Throw (if isMissing (VPrim p)
            then MissingParameterError "iotHubConfig"
            else TypeMismatchError "iotHubConfig" "object"), h).
Proof.
  destruct p as [| |b|n|s]; try reflexivity.
  unfold convertToEventHubConnectionConfig, mbind, M_bind,
    throwTypeErrorIfParameterMissing. simpl.
  by destruct (String.eqb s "").
Qed.

Lemma convert_object (factory : value → M value) (l : loc) (h : heap) :
  convertToEventHubConnectionConfig factory (VObject l) h =
    match validate (VObject l) h with
    | (Ok _, h1) =>
        let l' := fresh (dom h1) in
        factory (VObject l') (<[l' := connectionConfigOf (h1 !!! l)]> h1)
    | (Throw e, h1) => (Throw e, h1)
    end.
Proof.
  unfold convertToEventHubConnectionConfig.
  change ((throwTypeErrorIfParameterMissing "iotHubConfig" (VObject l);;
           throwTypeErrorIfParameterTypeMismatch "iotHubConfig" (VObject l) "object";;
           ?k) h) with (k h).
  unfold mbind at 1, M_bind at 1.
  destruct (validate (VObject l) h) as [[[]|e] h1]; reflexivity.
Qed.

(* ------------------------------------------------------------------ *)
(** ** [validate] *)

Ltac simpl_coerce :=
  repeat first
    [ rewrite lookup_total_insert_eq
    | rewrite lookup_coerce_eq
    | rewrite lookup_coerce_ne by first [done | congruence]
    | rewrite prop_coerce_eq
    | rewrite prop_coerce_ne by first [done | congruence] ].

Ltac required_cases H :=
  unfold requiredFields in H;
  repeat (apply elem_of_cons in H as [->|H]);
  [ .. | by apply elem_of_nil in H ].

(** After a successful call every required field holds the string of the
    value it held, and [deviceId] does so when it was neither [undefined]
    nor [null]. *)
Lemma validate_ok_fields (l : loc) (h h' : heap) :
  validate (VObject l) h = (Ok tt, h') →
  Forall (λ f, isMissing (VPrim (prop (h !!! l) f)) = false) requiredFields
  ∧ (∀ f, f ∈ requiredFields →
       (h' !!! l) !! f = Some (PString (ToString (prop (h !!! l) f))))
  ∧ (neq_undefined (prop (h !!! l) "deviceId") = true →
       (h' !!! l) !! "deviceId"
         = Some (PString (ToString (prop (h !!! l) "deviceId"))))
  ∧ (neq_undefined (prop (h !!! l) "deviceId") = false →
       (h' !!! l) !! "deviceId" = (h !!! l) !! "deviceId").
Proof.
  rewrite validate_cascade. cbv zeta.
  destruct (isMissing (VPrim (prop _ "hostName"))) eqn:E1; [done|].
  destruct (isMissing (VPrim (prop _ "entityPath"))) eqn:E2; [done|].
  destruct (isMissing (VPrim (prop _ "sharedAccessKeyName"))) eqn:E3; [done|].
  destruct (isMissing (VPrim (prop _ "sharedAccessKey"))) eqn:E4; [done|].
  destruct (neq_undefined _) eqn:E5; intros [= <-];
    (split; [by repeat constructor|]);
    (split; [intros f Hf; required_cases Hf|]);
    by simpl_coerce.
Qed.

(** C7.  When the four required fields of the descriptor are present and
    not empty, [validate] succeeds and leaves in each of them, on the
    record that was passed in, the string of the value it held; [deviceId]
    is coerced in the same way when it is present (neither [undefined] nor
    [null]) and is left as it was otherwise. *)
Theorem validate_coerces_in_place (l : loc) (h : heap) :
  Forall (λ f, isMissing (VPrim (prop (h !!! l) f)) = false) requiredFields →
  ∃ h', validate (VObject l) h = (Ok tt, h')
    ∧ (∀ f, f ∈ requiredFields →
         (h' !!! l) !! f = Some (PString (ToString (prop (h !!! l) f))))
    ∧ (neq_undefined (prop (h !!! l) "deviceId") = true →
         (h' !!! l) !! "deviceId"
           = Some (PString (ToString (prop (h !!! l) "deviceId"))))
    ∧ (neq_undefined (prop (h !!! l) "deviceId") = false →
         (h' !!! l) !! "deviceId" = (h !!! l) !! "deviceId").
Proof.
  intros Hreq.
  assert (∃ h', validate (VObject l) h = (Ok tt, h')) as [h' Hv].
  { rewrite validate_cascade. cbv zeta.
    unfold requiredFields in Hreq.
    repeat (apply Forall_cons in Hreq as [-> Hreq]).
    destruct (neq_undefined _); eauto. }
  exists h'. split; [done|]. by apply validate_ok_fields in Hv as (_ & ?).
Qed.

(** The spec's example: [validate({hostName: 1, entityPath: "p",
    sharedAccessKeyName: "n", sharedAccessKey: "k"})] succeeds and
    [hostName] becomes the string ["1"]; there is no [deviceId] before and
    none after. *)
Lemma validate_coerces_in_place_witness :
  ∃ h', validate (VObject 1%positive) numericHost = (Ok tt, h')
    ∧ (h' !!! 1%positive) !! "hostName" = Some (PString "1")
    ∧ (h' !!! 1%positive) !! "deviceId" = None.
Proof.
  destruct (validate_coerces_in_place 1%positive numericHost)
    as (h' & Hv & Hreq & _ & Hdev).
  { repeat constructor. }
  exists h'. split; [exact Hv|]. split.
  - apply (Hreq "hostName"). unfold requiredFields. apply elem_of_cons. by left.
  - apply Hdev. reflexivity.
Defined.

(** A valid, coerced descriptor passes [validate] unchanged. *)
Lemma validate_validCoerced (l : loc) (h : heap) :
  validCoerced (h !!! l) = true → validate (VObject l) h = (Ok tt, h).
Proof.
  unfold validCoerced, requiredFields. simpl.
  rewrite !andb_true_iff. intros ((H1 & H2 & H3 & H4 & _) & Hdev).
  rewrite validate_cascade. cbv zeta.
  rewrite !nonEmptyString_not_missing by done.
  apply nonEmptyString_inv in H1 as [s1 H1], H2 as [s2 H2],
    H3 as [s3 H3], H4 as [s4 H4].
  assert (∀ k s, prop (h !!! l) k = PString s →
            (h !!! l) !! k = Some (PString s)) as Hlook.
  { intros k s. unfold prop. by destruct ((h !!! l) !! k) as [p|]; intros [= ->]. }
  apply Hlook in H1, H2, H3, H4.
  rewrite (coerce_string "hostName" s1) by done.
  rewrite (coerce_string "entityPath" s2) by done.
  rewrite (coerce_string "sharedAccessKeyName" s3) by done.
  rewrite (coerce_string "sharedAccessKey" s4) by done.
  destruct (prop (h !!! l) "deviceId") as [| |b|n|s] eqn:E5; simpl; try done.
  all: try (by erewrite heap_insert_id).
  apply Hlook in E5. rewrite (coerce_string "deviceId" s) by done.
  by erewrite heap_insert_id.
Qed.

(** What a successful [validate] leaves is valid and coerced. *)
Lemma validate_ok_validCoerced (l : loc) (h h' : heap) :
  validate (VObject l) h = (Ok tt, h') → validCoerced (h' !!! l) = true.
Proof.
  intros (Hreq & Hf & Hd1 & Hd0)%validate_ok_fields.
  unfold validCoerced. apply andb_true_iff. split.
  - apply forallb_forall. intros f Hin%list_elem_of_In.
    unfold prop. rewrite (Hf f Hin). simpl.
    apply ToString_not_empty. by eapply Forall_forall in Hreq.
  - unfold prop in *.
    destruct (neq_undefined (default PUndefined ((h !!! l) !! "deviceId"))) eqn:E.
    + by rewrite Hd1.
    + rewrite Hd0 by done.
      by destruct (default PUndefined ((h !!! l) !! "deviceId")).
Qed.

(** C8.  [validate] is idempotent: on a descriptor that is valid and
    coerced already it raises no error and leaves the store as it is; and
    a descriptor on which [validate] has succeeded is such a descriptor,
    so a second call changes nothing. *)
Theorem validate_idempotent (l : loc) (h : heap) :
  (validCoerced (h !!! l) = true → validate (VObject l) h = (Ok tt, h))
  ∧ (∀ h1, validate (VObject l) h = (Ok tt, h1) →
        validate (VObject l) h1 = (Ok tt, h1)).
Proof.
  split; [apply validate_validCoerced|].
  intros h1 Hv. by apply validate_validCoerced, (validate_ok_validCoerced l h).
Qed.

(** On the descriptor with [hostName: "foo.bar"], which holds strings
    only, [validate] returns with the store unchanged; and after the first
    call on [{hostName: 1, ...}] a second call changes nothing. *)
Lemma validate_idempotent_witness :
  validate (VObject 1%positive) fooBar = (Ok tt, fooBar)
  ∧ ∃ h1, validate (VObject 1%positive) numericHost = (Ok tt, h1)
          ∧ validate (VObject 1%positive) h1 = (Ok tt, h1).
Proof.
  split.
  - apply (proj1 (validate_idempotent 1%positive fooBar)). reflexivity.
  - eexists. split; [vm_compute; reflexivity|].
    apply (proj2 (validate_idempotent 1%positive numericHost)).
    vm_compute. reflexivity.
Defined.

(** A property [validate] does not assign to is as it was, in every
    record: one outside the five fields, or [deviceId] where it is absent,
    [undefined] or [null]. *)
Lemma validate_unassigned (v : value) (h : heap) (l : loc) (k : string) :
  k ∉ coercedFields
  ∨ (k = "deviceId" ∧ neq_undefined (prop (h !!! l) "deviceId") = false) →
  ((validate v h).2 !!! l) !! k = (h !!! l) !! k.
Proof.
  intros Hk. destruct v as [p|l0]; [by rewrite validate_prim|].
  assert (∀ o : object, ((<[l0 := o]> h) !!! l) !! k
            = if decide (l0 = l) then o !! k else (h !!! l) !! k) as Hins.
  { intros o. destruct (decide (l0 = l)) as [->|Hne];
      [by rewrite lookup_total_insert_eq | by rewrite lookup_total_insert_ne]. }
  assert (∀ f, f ∈ requiredFields ↔
            f = "hostName" ∨ f = "entityPath"
            ∨ f = "sharedAccessKeyName" ∨ f = "sharedAccessKey") as Hreq.
  { intros f. unfold requiredFields. rewrite !elem_of_cons, elem_of_nil. tauto. }
  assert (∀ f (o : object), f ∈ requiredFields → coerce f o !! k = o !! k) as Hco.
  { intros f o Hf. apply lookup_coerce_ne. intros ->.
    destruct Hk as [Hk|[-> _]].
    - apply Hk. unfold coercedFields. apply elem_of_app. by left.
    - apply Hreq in Hf. destruct Hf as [?|[?|[?|?]]]; discriminate. }
  rewrite validate_cascade. cbv zeta.
  repeat (destruct (isMissing _); cbn [snd];
          [ first [ done
                  | rewrite Hins; destruct (decide (l0 = l)) as [->|];
                    [rewrite !Hco by (apply Hreq; tauto); done | done] ] |]).
  destruct (neq_undefined (prop (h !!! l0) "deviceId")) eqn:Edev; cbn [snd];
    rewrite Hins; destruct (decide (l0 = l)) as [->|]; try done.
  - rewrite lookup_coerce_ne.
    + rewrite !Hco by (apply Hreq; tauto). done.
    + intros <-. destruct Hk as [Hk|[_ Hk]]; [|congruence].
      apply Hk. unfold coercedFields. apply elem_of_app. right.
      apply elem_of_cons. by left.
  - rewrite !Hco by (apply Hreq; tauto). done.
Qed.

(** A record other than the argument is as it was. *)
Lemma validate_other_record (v : value) (h : heap) (l : loc) :
  v ≠ VObject l → (validate v h).2 !! l = h !! l.
Proof.
  intros Hne. destruct v as [p|l0]; [by rewrite validate_prim|].
  rewrite validate_cascade. cbv zeta.
  repeat (destruct (isMissing _); cbn [snd];
          [ first [ done | apply lookup_insert_ne; congruence ] |]).
  destruct (neq_undefined _); cbn [snd]; apply lookup_insert_ne; congruence.
Qed.

Lemma not_coerced_field (k : string) :
  k ≠ "hostName" → k ≠ "entityPath" → k ≠ "sharedAccessKeyName" →
  k ≠ "sharedAccessKey" → k ≠ "deviceId" → k ∉ coercedFields.
Proof.
  intros. unfold coercedFields, requiredFields. simpl.
  rewrite !elem_of_cons, elem_of_nil. tauto.
Qed.

(** C10.  [validate] assigns to [hostName], [entityPath],
    [sharedAccessKeyName], [sharedAccessKey] and [deviceId] only: whether
    it returns or throws, every other property of every record, [host] and
    [connectionString] among them, is as it was, every record other than
    the argument is as it was, and [deviceId] itself is as it was when it
    was absent, [undefined] or [null]. *)
Theorem validate_frame (v : value) (h : heap) :
  let h' := (validate v h).2 in
  (∀ l k, k ∉ coercedFields → (h' !!! l) !! k = (h !!! l) !! k)
  ∧ (∀ l, (h' !!! l) !! "host" = (h !!! l) !! "host"
          ∧ (h' !!! l) !! "connectionString" = (h !!! l) !! "connectionString")
  ∧ (∀ l, v ≠ VObject l → h' !! l = h !! l)
  ∧ (∀ l, neq_undefined (prop (h !!! l) "deviceId") = false →
          (h' !!! l) !! "deviceId" = (h !!! l) !! "deviceId").
Proof.
  cbv zeta. split; [|split; [|split]].
  - intros l k Hk. apply validate_unassigned. by left.
  - intros l. split; apply validate_unassigned; left; by apply not_coerced_field.
  - intros l. apply validate_other_record.
  - intros l Hdev. apply validate_unassigned. by right.
Qed.

(** On [{hostName: 1, entityPath: "p", ...}] the call rewrites [hostName]
    and leaves [host] and [connectionString] (absent here) and every
    property outside the five alone; location 2 is not touched. *)
Lemma validate_frame_witness :
  let h' := (validate (VObject 1%positive) numericHost).2 in
  (h' !!! 1%positive) !! "hostName" = Some (PString "1")
  ∧ (h' !!! 1%positive) !! "host" = (numericHost !!! 1%positive) !! "host"
  ∧ (h' !!! 1%positive) !! "endpoint" = (numericHost !!! 1%positive) !! "endpoint"
  ∧ h' !! 2%positive = numericHost !! 2%positive
  ∧ (h' !!! 1%positive) !! "deviceId" = (numericHost !!! 1%positive) !! "deviceId".
Proof.
  pose proof (validate_frame (VObject 1%positive) numericHost) as H.
  cbv zeta in *. destruct H as (Hother & Hhost & Hloc & Hdev).
  split; [vm_compute; reflexivity|].
  split; [apply Hhost|].
  split; [apply Hother; by apply not_coerced_field|].
  split; [apply Hloc; discriminate|].
  apply Hdev. reflexivity.
Defined.

(** How [validate] fails on a record: at the first required field that is
    missing, with the fields before it coerced already and everything
    else as it was. *)
Lemma validate_throw_inv (l : loc) (h h' : heap) (e : error) :
  validate (VObject l) h = (Throw e, h') →
  ∃ earlier f later,
    requiredFields = (earlier ++ f :: later)%list
    ∧ e = MissingParameterError f
    ∧ isMissing (VPrim (prop (h !!! l) f)) = true
    ∧ Forall (λ g, isMissing (VPrim (prop (h !!! l) g)) = false) earlier
    ∧ Forall (λ g, (h' !!! l) !! g
                     = Some (PString (ToString (prop (h !!! l) g)))) earlier
    ∧ (∀ g, g ∉ earlier → (h' !!! l) !! g = (h !!! l) !! g)
    ∧ (earlier = [] → h' = h).
Proof.
  rewrite validate_cascade. cbv zeta.
  destruct (isMissing (VPrim (prop _ "hostName"))) eqn:E1.
  { intros [= <- <-]. exists [], "hostName", (tail requiredFields).
    repeat split; try done; constructor. }
  destruct (isMissing (VPrim (prop _ "entityPath"))) eqn:E2.
  { intros [= <- <-]. exists ["hostName"], "entityPath", (drop 2 requiredFields).
    split; [done|]. split; [done|]. split; [done|].
    split; [by repeat constructor|].
    split; [repeat constructor; by simpl_coerce|].
    split; [|done]. intros g Hg. rewrite !not_elem_of_cons in Hg.
    destruct_and!. by simpl_coerce. }
  destruct (isMissing (VPrim (prop _ "sharedAccessKeyName"))) eqn:E3.
  { intros [= <- <-].
    exists ["hostName"; "entityPath"], "sharedAccessKeyName", (drop 3 requiredFields).
    split; [done|]. split; [done|]. split; [done|].
    split; [by repeat constructor|].
    split; [repeat constructor; by simpl_coerce|].
    split; [|done]. intros g Hg. rewrite !not_elem_of_cons in Hg.
    destruct_and!. by simpl_coerce. }
  destruct (isMissing (VPrim (prop _ "sharedAccessKey"))) eqn:E4.
  { intros [= <- <-].
    exists ["hostName"; "entityPath"; "sharedAccessKeyName"], "sharedAccessKey", [].
    split; [done|]. split; [done|]. split; [done|].
    split; [by repeat constructor|].
    split; [repeat constructor; by simpl_coerce|].
    split; [|done]. intros g Hg. rewrite !not_elem_of_cons in Hg.
    destruct_and!. by simpl_coerce. }
  by destruct (neq_undefined _).
Qed.

(** C2, as the code has it.  A failing [validate] stops at the first
    failure: on a primitive argument nothing is touched; on a record the
    error is the MissingParameterError of the first required field that is
    missing (the fields checked before it are not missing, it is), that
    field and every field not checked before it are as they were, and
    every required field checked before it has been coerced to a string in
    place already.  So the record is as it was exactly when the fields
    checked before the failing one held strings already, as when
    [hostName] is the failing one. *)
Theorem validate_throw_keeps_earlier_coercions
    (v : value) (h h' : heap) (e : error) :
  validate v h = (Throw e, h') →
  (∀ p, v = VPrim p → h' = h)
  ∧ (∀ l, v = VObject l →
       ∃ earlier f later,
         requiredFields = (earlier ++ f :: later)%list
         ∧ e = MissingParameterError f
         ∧ isMissing (VPrim (prop (h !!! l) f)) = true
         ∧ Forall (λ g, isMissing (VPrim (prop (h !!! l) g)) = false) earlier
         ∧ Forall (λ g, (h' !!! l) !! g
                          = Some (PString (ToString (prop (h !!! l) g)))) earlier
         ∧ (∀ g, g ∉ earlier → (h' !!! l) !! g = (h !!! l) !! g)
         ∧ (earlier = [] → h' = h)
         ∧ (h' !!! l = h !!! l
            ↔ Forall (λ g, ∃ s, (h !!! l) !! g = Some (PString s)) earlier)).
Proof.
  intros Hv. split.
  - intros p ->. rewrite validate_prim in Hv. congruence.
  - intros l ->.
    apply validate_throw_inv in Hv
      as (earlier & f & later & Hsplit & He & Hf & Hpresent & Hco & Hrest & Hnil).
    exists earlier, f, later.
    split; [done|]. split; [done|]. split; [done|]. split; [done|].
    split; [done|]. split; [done|]. split; [done|].
    rewrite !Forall_forall. split.
    + intros Heq g Hg. rewrite Forall_forall in Hco.
      specialize (Hco g Hg). rewrite Heq in Hco. eauto.
    + intros Hstr. apply map_eq. intros g.
      destruct (decide (g ∈ earlier)) as [Hg|Hg]; [|by apply Hrest].
      rewrite Forall_forall in Hco. rewrite (Hco g Hg).
      destruct (Hstr g Hg) as [s Hs]. unfold prop. by rewrite Hs.
Qed.

(** On [{hostName: 1}] the call throws for [entityPath], which is
    missing, after it has turned [hostName], which is not, into ["1"]. *)
Lemma validate_throw_keeps_earlier_coercions_witness :
  validate (VObject 1%positive) hostOnly
    = (Throw (MissingParameterError "entityPath"), hostOnlyCoerced)
  ∧ ∃ earlier f later,
      requiredFields = (earlier ++ f :: later)%list
      ∧ MissingParameterError "entityPath" = MissingParameterError f
      ∧ isMissing (VPrim (prop (hostOnly !!! 1%positive) f)) = true
      ∧ Forall (λ g, isMissing (VPrim (prop (hostOnly !!! 1%positive) g)) = false)
          earlier
      ∧ Forall (λ g, (hostOnlyCoerced !!! 1%positive) !! g
           = Some (PString (ToString (prop (hostOnly !!! 1%positive) g))))
           earlier.
Proof.
  assert (validate (VObject 1%positive) hostOnly
          = (Throw (MissingParameterError "entityPath"), hostOnlyCoerced))
    as Hv by (vm_compute; reflexivity).
  split; [exact Hv|].
  destruct (validate_throw_keeps_earlier_coercions (VObject 1%positive) hostOnly
              hostOnlyCoerced (MissingParameterError "entityPath") Hv)
    as [_ Hobj].
  destruct (Hobj 1%positive eq_refl)
    as (earlier & f & later & Hsplit & He & Hf & Hpresent & Hco & _).
  exists earlier, f, later.
  split; [exact Hsplit|]. split; [exact He|]. split; [exact Hf|].
  split; [exact Hpresent | exact Hco].
Defined.

(** C2, as stated, fails: [validate({hostName: 1})] throws for
    [entityPath], and the record passed in is no longer the one it was;
    its [hostName] has become the string ["1"]. *)
Lemma validate_throw_not_all_or_nothing :
  validate (VObject 1%positive) hostOnly
    = (Throw (MissingParameterError "entityPath"),
       {[ 1%positive := {[ "hostName" := PString "1" ]} ]})
  ∧ hostOnly !!! 1%positive = ({[ "hostName" := PNum 1 ]} : object)
  ∧ ({[ 1%positive := {[ "hostName" := PString "1" ]} ]} : heap) ≠ hostOnly.
Proof.
  split; [vm_compute; reflexivity|]. split; [vm_compute; reflexivity|].
  intros H. apply (f_equal (λ h : heap, prop (h !!! 1%positive) "hostName")) in H.
  vm_compute in H. discriminate H.
Qed.

(** C5, as the code has it.  On a record, [validate] checks [hostName],
    [entityPath], [sharedAccessKeyName], [sharedAccessKey] in this order
    and throws the MissingParameterError of the first one that is missing
    or empty; [validate({})] throws it for [hostName].  An argument that is
    [undefined], [null] or the empty string fails with the
    MissingParameterError of [config]; every other argument that is not
    a record fails with the TypeMismatchError. *)
Theorem validate_first_missing_field_wins (h : heap) :
  (∀ l earlier f later,
      requiredFields = (earlier ++ f :: later)%list →
      Forall (λ g, isMissing (VPrim (prop (h !!! l) g)) = false) earlier →
      isMissing (VPrim (prop (h !!! l) f)) = true →
      ∃ h', validate (VObject l) h = (Throw (MissingParameterError f), h'))
  ∧ (∀ l, h !!! l = ∅ →
        validate (VObject l) h = (Throw (MissingParameterError "hostName"), h))
  ∧ (∀ p, isMissing (VPrim p) = true →
        validate (VPrim p) h = (Throw (MissingParameterError "config"), h))
  ∧ (∀ p, isMissing (VPrim p) = false →
        validate (VPrim p) h = (Throw (TypeMismatchError "config" "object"), h)).
Proof.
  split; [|split; [|split]].
  - intros l earlier f later Hsplit Hearlier Hf.
    rewrite validate_cascade. cbv zeta. unfold requiredFields in Hsplit.
    repeat (destruct earlier as [|? earlier];
            [ injection Hsplit as <- <-; rewrite ?Hf; eauto
            | injection Hsplit as <- Hsplit;
              apply Forall_cons in Hearlier as [-> Hearlier] ]).
    by destruct earlier.
  - intros l Hl. rewrite validate_cascade. cbv zeta. by rewrite Hl.
  - intros p Hp. by rewrite validate_prim, Hp.
  - intros p Hp. by rewrite validate_prim, Hp.
Qed.

(** [validate({})] throws for [hostName]; on [{hostName: 1}] the first
    missing field is [entityPath]; [validate(5)] is a type mismatch and
    [validate(null)] a missing parameter. *)
Lemma validate_first_missing_field_wins_witness :
  validate (VObject 1%positive) emptyRecord
    = (Throw (MissingParameterError "hostName"), emptyRecord)
  ∧ (∃ h', validate (VObject 1%positive) hostOnly
             = (Throw (MissingParameterError "entityPath"), h'))
  ∧ validate (VPrim PNull) ∅ = (Throw (MissingParameterError "config"), ∅)
  ∧ validate (VPrim (PNum 5)) ∅
      = (Throw (TypeMismatchError "config" "object"), ∅).
Proof.
  split; [|split; [|split]].
  - apply (proj1 (proj2 (validate_first_missing_field_wins emptyRecord))).
    reflexivity.
  - apply (proj1 (validate_first_missing_field_wins hostOnly) 1%positive
             ["hostName"] "entityPath" ["sharedAccessKeyName"; "sharedAccessKey"]).
    + reflexivity.
    + repeat constructor.
    + reflexivity.
  - apply (proj1 (proj2 (proj2 (validate_first_missing_field_wins ∅)))). reflexivity.
  - apply (proj2 (proj2 (proj2 (validate_first_missing_field_wins ∅)))). reflexivity.
Defined.

(** C5, as stated, fails in its last sentence: [undefined] is not an
    object, and [validate(undefined)] throws the MissingParameterError of
    [config], not a TypeMismatchError. *)
Lemma validate_undefined_is_missing_parameter :
  typeof (VPrim PUndefined) ≠ "object"
  ∧ validate (VPrim PUndefined) ∅ = (Throw (MissingParameterError "config"), ∅)
  ∧ kind_of (MissingParameterError "config") ≠ KTypeMismatch.
Proof. split; [discriminate|]. split; [reflexivity|discriminate]. Qed.

(* ------------------------------------------------------------------ *)
(** ** [convertToEventHubConnectionConfig] *)

(** C9.  The conversion runs [validate] before it builds anything: on
    every input on which [validate] throws, the conversion throws an error
    of the same kind and leaves the same store, whatever the factory; on
    a record the error is the very error of [validate], so the first
    missing field is reported; on an argument that is not a record the
    conversion's own guards throw it, under the parameter name
    [iotHubConfig].  On [undefined] and [null] it throws the
    MissingParameterError. *)
Theorem convert_propagates_validate_errors
    (factory : value → M value) (v : value) (h : heap) :
  (∀ e h', validate v h = (Throw e, h') →
     ∃ e', convertToEventHubConnectionConfig factory v h = (Throw e', h')
           ∧ kind_of e' = kind_of e
           ∧ (∀ l, v = VObject l → e' = e))
  ∧ (v = VPrim PUndefined ∨ v = VPrim PNull →
       convertToEventHubConnectionConfig factory v h
         = (Throw (MissingParameterError "iotHubConfig"), h)).
Proof.
  split.
  - intros e h' Hv. destruct v as [p|l].
    + rewrite validate_prim in Hv. rewrite convert_prim.
      destruct (isMissing (VPrim p)); injection Hv as <- <-;
        (eexists; split; [done|]; split; [done | intros l [=]]).
    + rewrite convert_object, Hv. eauto.
  - intros [-> | ->]; by rewrite convert_prim.
Qed.

(** On [{hostName: 1}] both throw for [entityPath]; on [undefined] the
    conversion throws the MissingParameterError. *)
Lemma convert_propagates_validate_errors_witness :
  (∃ h', convertToEventHubConnectionConfig createFromConnectionConfig
           (VObject 1%positive) hostOnly
         = (Throw (MissingParameterError "entityPath"), h'))
  ∧ convertToEventHubConnectionConfig createFromConnectionConfig
      (VPrim PUndefined) ∅
    = (Throw (MissingParameterError "iotHubConfig"), ∅).
Proof.
  split.
  - destruct (proj1 (convert_propagates_validate_errors
                       createFromConnectionConfig (VObject 1%positive) hostOnly)
                (MissingParameterError "entityPath") _
                ltac:(vm_compute; reflexivity))
      as (e' & Hc & _ & He).
    rewrite (He 1%positive eq_refl) in Hc. eauto.
  - apply (proj2 (convert_propagates_validate_errors
                    createFromConnectionConfig (VPrim PUndefined) ∅)).
    by left.
Defined.

(** C3.  For a descriptor that passes validation the conversion hands the
    factory a new record whose [endpoint] is ["sb://" + hostName + "/"] and
    whose [host] is [hostName] itself, not its first label, with
    [sharedAccessKey], [sharedAccessKeyName], [entityPath] and
    [connectionString] copied from the descriptor.  The descriptor is the
    validated one: [hostName] and the three other required fields are the
    strings of what was passed in, [connectionString] is what was passed
    in. *)
Theorem convert_builds_endpoint_and_host
    (factory : value → M value) (l : loc) (h h1 : heap) :
  validate (VObject l) h = (Ok tt, h1) →
  ∃ hostName : string,
    (h1 !!! l) !! "hostName" = Some (PString hostName)
    ∧ hostName = ToString (prop (h !!! l) "hostName")
    ∧ (∀ f, f ∈ requiredFields →
         prop (h1 !!! l) f = PString (ToString (prop (h !!! l) f)))
    ∧ prop (h1 !!! l) "connectionString" = prop (h !!! l) "connectionString"
    ∧ let l' := fresh (dom h1) in
      let config : object :=
        list_to_map
          [ ("sharedAccessKey", prop (h1 !!! l) "sharedAccessKey");
            ("sharedAccessKeyName", prop (h1 !!! l) "sharedAccessKeyName");
            ("entityPath", prop (h1 !!! l) "entityPath");
            ("host", PString hostName);
            ("endpoint", PString ("sb://" ++ hostName ++ "/"));
            ("connectionString", prop (h1 !!! l) "connectionString") ] in
      h1 !! l' = None
      ∧ convertToEventHubConnectionConfig factory (VObject l) h
          = factory (VObject l') (<[l' := config]> h1).
Proof.
  intros Hv. exists (ToString (prop (h !!! l) "hostName")).
  pose proof Hv as (_ & Hf & _)%validate_ok_fields.
  assert ((h1 !!! l) !! "hostName"
            = Some (PString (ToString (prop (h !!! l) "hostName")))) as Hhost.
  { apply Hf. unfold requiredFields. apply elem_of_cons. by left. }
  split; [done|]. split; [done|].
  split; [intros f Hin; unfold prop at 1; by rewrite (Hf f Hin)|].
  split.
  { pose proof (validate_unassigned (VObject l) h l "connectionString") as Hcs.
    rewrite Hv in Hcs. cbn [snd] in Hcs. unfold prop. rewrite Hcs; [done|].
    left. by apply not_coerced_field. }
  cbv zeta. split.
  - apply not_elem_of_dom, is_fresh.
  - rewrite convert_object, Hv. cbv zeta. unfold connectionConfigOf.
    unfold prop at 4 5. by rewrite Hhost.
Qed.

(** The spec's example: with [hostName == "foo.bar"] the record built has
    [endpoint == "sb://foo.bar/"] and [host == "foo.bar"]. *)
Lemma convert_builds_endpoint_and_host_witness :
  ∃ (l' : loc) (config : object),
    convertToEventHubConnectionConfig createFromConnectionConfig
      (VObject 1%positive) fooBar
      = (Ok (VObject l'), <[l' := config]> fooBar)
    ∧ config !! "endpoint" = Some (PString "sb://foo.bar/")
    ∧ config !! "host" = Some (PString "foo.bar")
    ∧ config !! "connectionString" = Some (PString "cs").
Proof.
  destruct (convert_builds_endpoint_and_host createFromConnectionConfig
              1%positive fooBar fooBar)
    as (hostName & Hhost & -> & _ & _ & _ & Hc).
  { vm_compute. reflexivity. }
  eexists _, _. split; [exact Hc|]. vm_compute. repeat split.
Defined.

(* ------------------------------------------------------------------ *)
(** ** [create] *)

Lemma split_noDot (a : string) :
  noDot a → split "." a = [a].
Proof.
  unfold noDot. induction a as [|c a IH]; simpl; [done|].
  intros Hno. destruct (Ascii.eqb_spec c ".") as [->|_]; [tauto|].
  rewrite IH; [done|tauto].
Qed.

Lemma split_first_label (a rest : string) :
  noDot a → split "." (a ++ "." ++ rest) = a :: split "." rest.
Proof.
  unfold noDot. induction a as [|c a IH]; simpl; [done|].
  intros Hno. destruct (Ascii.eqb_spec c ".") as [->|_]; [tauto|].
  rewrite IH; [done|tauto].
Qed.

(** [create] throws on a missing connection string and otherwise
    allocates the record at a new location. *)
Lemma create_run (parse : string → ParsedOutput)
    (connectionString path : prim) (h : heap) :
  create parse connectionString path h =
    if isMissing (VPrim connectionString)
    then (Throw (MissingParameterError "connectionString"), h)
    else (Ok (VObject (fresh (dom h))),
          <[fresh (dom h) := createdConfig parse connectionString path]> h).
Proof.
  unfold create, mbind, M_bind, throwTypeErrorIfParameterMissing.
  by destruct (isMissing (VPrim connectionString)).
Qed.

(** C6.  [create] throws exactly when the connection string is [null],
    [undefined] or empty, and what it throws then is the
    MissingParameterError of [connectionString]; on every non-empty string
    it returns a descriptor, a new record, whatever keys the string
    holds. *)
Theorem create_throws_iff_missing (parse : string → ParsedOutput)
    (connectionString path : prim) (h : heap) :
  ((∃ e h', create parse connectionString path h = (Throw e, h'))
     ↔ connectionString = PUndefined ∨ connectionString = PNull
       ∨ connectionString = PString "")
  ∧ (∀ e h', create parse connectionString path h = (Throw e, h') →
        e = MissingParameterError "connectionString" ∧ h' = h)
  ∧ (∀ s, connectionString = PString s → s ≠ "" →
        ∃ l h', create parse connectionString path h = (Ok (VObject l), h')
                ∧ h !! l = None
                ∧ ∀ l0, l0 ≠ l → h' !! l0 = h !! l0).
Proof.
  rewrite create_run.
  assert (isMissing (VPrim connectionString) = true ↔
            connectionString = PUndefined ∨ connectionString = PNull
            ∨ connectionString = PString "") as Hmiss.
  { rewrite isMissing_spec.
    split; (intros [?|[?|?]]; [left|right; left|right; right]; congruence). }
  destruct (isMissing (VPrim connectionString)) eqn:E.
  - split; [|split].
    + split; [intros _; by apply Hmiss | eauto].
    + by intros e h' [= <- <-].
    + intros s -> Hs. apply proj1 in Hmiss.
      destruct (Hmiss eq_refl) as [?|[?|?]]; congruence.
  - split; [|split].
    + split; [by intros (e & h' & ?) | intros H%Hmiss; discriminate].
    + by intros e h'.
    + intros s _ _. eexists _, _. split; [done|]. split.
      * apply not_elem_of_dom, is_fresh.
      * intros l0 Hne. by apply lookup_insert_ne.
Qed.

(** [create(undefined)] throws; [create("x")], a string with no key in
    it, returns a descriptor. *)
Lemma create_throws_iff_missing_witness :
  create parseConnectionString PUndefined PUndefined ∅
    = (Throw (MissingParameterError "connectionString"), ∅)
  ∧ ∃ l h', create parseConnectionString (PString "x") PUndefined ∅
              = (Ok (VObject l), h').
Proof.
  split.
  - destruct (proj2 (proj1 (create_throws_iff_missing parseConnectionString
                PUndefined PUndefined ∅))) as (e & h' & Hc).
    + by left.
    + destruct (proj1 (proj2 (create_throws_iff_missing parseConnectionString
                  PUndefined PUndefined ∅)) e h' Hc) as [-> ->].
      exact Hc.
  - destruct (proj2 (proj2 (create_throws_iff_missing parseConnectionString
                (PString "x") PUndefined ∅)) "x" eq_refl)
      as (l & h' & Hc & _); [discriminate|].
    by exists l, h'.
Defined.

(** Reading a property of the record [create] allocates. *)
Lemma create_lookup (parse : string → ParsedOutput)
    (connectionString path : prim) (h : heap) :
  isMissing (VPrim connectionString) = false →
  ∃ l h', create parse connectionString path h = (Ok (VObject l), h')
          ∧ h' !!! l = createdConfig parse connectionString path.
Proof.
  intros Hcs. rewrite create_run, Hcs. eexists _, _. split; [done|].
  by rewrite lookup_total_insert_eq.
Qed.

(** C1.  In the descriptor [create] returns, [hostName] is the value the
    tokenizer gives for [HostName], and [host] is the part of it before
    its first ["."]: for [HostName=a.b.c] the descriptor has [hostName ==
    "a.b.c"] and [host == "a"].  When the tokenizer gives no [HostName], or
    an empty one, [host] is the empty string. *)
Theorem create_host_is_first_label (parse : string → ParsedOutput)
    (connectionString path : prim) (h : heap) :
  isMissing (VPrim connectionString) = false →
  ∃ l h', create parse connectionString path h = (Ok (VObject l), h')
    ∧ let parsedCS := parse (ToString connectionString) in
      (∀ a rest, parsedCS !! "HostName" = Some (a ++ "." ++ rest) → noDot a →
          (h' !!! l) !! "hostName" = Some (PString (a ++ "." ++ rest))
          ∧ (h' !!! l) !! "host" = Some (PString a))
      ∧ (∀ a, parsedCS !! "HostName" = Some a → noDot a →
          (h' !!! l) !! "hostName" = Some (PString a)
          ∧ (h' !!! l) !! "host" = Some (PString a))
      ∧ (parsedCS !! "HostName" = None →
          (h' !!! l) !! "hostName" = Some PUndefined
          ∧ (h' !!! l) !! "host" = Some (PString ""))
      ∧ (parsedCS !! "HostName" = Some "" →
          (h' !!! l) !! "host" = Some (PString "")).
Proof.
  intros Hcs.
  destruct (create_lookup parse connectionString path h Hcs) as (l & h' & Hc & Hl).
  exists l, h'. split; [done|]. rewrite Hl. cbv zeta.
  assert (createdConfig parse connectionString path !! "hostName"
          = Some (parsedProp (parse (ToString connectionString)) "HostName"))
    as Hname by reflexivity.
  assert (createdConfig parse connectionString path !! "host"
          = Some match parse (ToString connectionString) !! "HostName" with
                 | Some HostName =>
                     if truthy (PString HostName)
                     then element (split "." HostName) 0
                     else PString ""
                 | None => PString ""
                 end) as Hhost by reflexivity.
  rewrite Hhost, Hname. unfold parsedProp.
  split; [|split; [|split]].
  - intros a rest -> Hno. split; [done|]. simpl.
    rewrite split_first_label by done.
    by destruct a.
  - intros a -> Hno. split; [done|]. simpl.
    rewrite split_noDot by done. by destruct a.
  - by intros ->.
  - by intros ->.
Qed.

(** The spec's connection string, tokenized by the tokenizer modelled
    from the spec. *)
Lemma create_host_is_first_label_witness :
  ∃ l h',
    create parseConnectionString
      (PString "HostName=a.b.c;SharedAccessKeyName=k;SharedAccessKey=s")
      PUndefined ∅ = (Ok (VObject l), h')
    ∧ (h' !!! l) !! "hostName" = Some (PString "a.b.c")
    ∧ (h' !!! l) !! "host" = Some (PString "a").
Proof.
  destruct (create_host_is_first_label parseConnectionString
              (PString "HostName=a.b.c;SharedAccessKeyName=k;SharedAccessKey=s")
              PUndefined ∅ eq_refl) as (l & h' & Hc & Hdot & _).
  exists l, h'. split; [exact Hc|].
  apply (Hdot "a" "b.c").
  - vm_compute. reflexivity.
  - unfold noDot. simpl. intros [H|[]]. discriminate H.
Defined.

(** C4.  The descriptor's [entityPath] is ["messages/events"] when [path]
    is omitted or falsy and is [path] otherwise; it is never empty. *)
Theorem create_entityPath_default (parse : string → ParsedOutput)
    (connectionString path : prim) (h : heap) :
  isMissing (VPrim connectionString) = false →
  ∃ l h', create parse connectionString path h = (Ok (VObject l), h')
    ∧ (truthy path = false →
         (h' !!! l) !! "entityPath" = Some (PString "messages/events"))
    ∧ (truthy path = true → (h' !!! l) !! "entityPath" = Some path)
    ∧ (h' !!! l) !! "entityPath" ≠ Some (PString "")
    ∧ truthy (prop (h' !!! l) "entityPath") = true.
Proof.
  intros Hcs.
  destruct (create_lookup parse connectionString path h Hcs) as (l & h' & Hc & Hl).
  exists l, h'. split; [done|]. rewrite Hl.
  assert (createdConfig parse connectionString path !! "entityPath"
          = Some (if negb (truthy path) then PString "messages/events" else path))
    as Hpath by reflexivity.
  unfold prop. rewrite Hpath.
  destruct (truthy path) eqn:E; simpl; repeat split; try done.
  intros [= ->]. discriminate E.
Qed.

(** No [path]: ["messages/events"]; [path == "custom/path"]: that path. *)
Lemma create_entityPath_default_witness :
  (∃ l h',
     create parseConnectionString
       (PString "HostName=h;SharedAccessKeyName=k;SharedAccessKey=s")
       PUndefined ∅ = (Ok (VObject l), h')
     ∧ (h' !!! l) !! "entityPath" = Some (PString "messages/events"))
  ∧ (∃ l h',
       create parseConnectionString
         (PString "HostName=h;SharedAccessKeyName=k;SharedAccessKey=s")
         (PString "custom/path") ∅ = (Ok (VObject l), h')
       ∧ (h' !!! l) !! "entityPath" = Some (PString "custom/path")).
Proof.
  split.
  - destruct (create_entityPath_default parseConnectionString
                (PString "HostName=h;SharedAccessKeyName=k;SharedAccessKey=s")
                PUndefined ∅ eq_refl) as (l & h' & Hc & Hdef & _).
    exists l, h'. split; [exact Hc | by apply Hdef].
  - destruct (create_entityPath_default parseConnectionString
                (PString "HostName=h;SharedAccessKeyName=k;SharedAccessKey=s")
                (PString "custom/path") ∅ eq_refl) as (l & h' & Hc & _ & Hp & _).
    exists l, h'. split; [exact Hc | by apply Hp].
Defined.

(* ------------------------------------------------------------------ *)
(** ** Further properties of [validate] *)

(** A value that passes the missing-parameter test, or the [!= undefined]
    test, is the value of a property the record has. *)
Lemma neq_undefined_present (o : object) (k : string) :
  neq_undefined (prop o k) = true → is_Some (o !! k).
Proof. unfold prop. destruct (o !! k); [eauto | done]. Qed.

Lemma not_missing_neq_undefined (p : prim) :
  isMissing (VPrim p) = false → neq_undefined p = true.
Proof. by destruct p. Qed.

Lemma dom_coerce (k : string) (o : object) :
  is_Some (o !! k) → dom (coerce k o) = dom o.
Proof.
  intros Hk%elem_of_dom. unfold coerce. rewrite dom_insert_L. set_solver.
Qed.

Lemma lookup_total_present (l : loc) (k : string) (h : heap) :
  is_Some ((h !!! l) !! k) → h !! l = Some (h !!! l).
Proof.
  rewrite lookup_total_alt. destruct (h !! l); [done|].
  simpl. rewrite lookup_empty. by intros [? ?].
Qed.

Lemma coercionOf_refl (o : object) : coercionOf o o.
Proof. split; [done|]. intros k. by left. Qed.

Lemma coercionOf_coerce (f : string) (o o' : object) :
  coercionOf o o' → f ∈ coercedFields →
  neq_undefined (prop o f) = true → prop o' f = prop o f →
  coercionOf o (coerce f o').
Proof.
  intros [Hdom Hk] Hf Hnu Hprop. split.
  - rewrite dom_coerce; [done|]. apply elem_of_dom. rewrite Hdom.
    by apply elem_of_dom, neq_undefined_present.
  - intros k. destruct (decide (f = k)) as [<-|Hne].
    + right. by rewrite lookup_coerce_eq, Hprop.
    + rewrite lookup_coerce_ne by done. apply Hk.
Qed.

Lemma coercedFields_elem (f : string) :
  f ∈ coercedFields ↔
  f = "hostName" ∨ f = "entityPath" ∨ f = "sharedAccessKeyName"
  ∨ f = "sharedAccessKey" ∨ f = "deviceId".
Proof.
  unfold coercedFields, requiredFields. simpl.
  rewrite !elem_of_cons, elem_of_nil. tauto.
Qed.

(** The store [validate] leaves, whether it returns or throws: the one it
    was given, or that store with the record of the argument, which the
    store holds, replaced by a coercion of it. *)
Lemma validate_store (l : loc) (h : heap) :
  (validate (VObject l) h).2 = h
  ∨ ∃ o', (validate (VObject l) h).2 = <[l := o']> h
          ∧ h !! l = Some (h !!! l)
          ∧ coercionOf (h !!! l) o'.
Proof.
  rewrite validate_cascade. cbv zeta.
  destruct (isMissing (VPrim (prop _ "hostName"))) eqn:E1; [by left|].
  apply not_missing_neq_undefined in E1.
  pose proof (lookup_total_present l "hostName" h
                (neq_undefined_present _ _ E1)) as Hl.
  pose proof (coercionOf_coerce "hostName" _ _ (coercionOf_refl (h !!! l))
                ltac:(apply coercedFields_elem; tauto) E1 eq_refl) as C1.
  right.
  destruct (isMissing (VPrim (prop _ "entityPath"))) eqn:E2; [by eexists|].
  apply not_missing_neq_undefined in E2.
  pose proof (coercionOf_coerce "entityPath" _ _ C1
                ltac:(apply coercedFields_elem; tauto) E2
                ltac:(by simpl_coerce)) as C2.
  destruct (isMissing (VPrim (prop _ "sharedAccessKeyName"))) eqn:E3;
    [by eexists|].
  apply not_missing_neq_undefined in E3.
  pose proof (coercionOf_coerce "sharedAccessKeyName" _ _ C2
                ltac:(apply coercedFields_elem; tauto) E3
                ltac:(by simpl_coerce)) as C3.
  destruct (isMissing (VPrim (prop _ "sharedAccessKey"))) eqn:E4;
    [by eexists|].
  apply not_missing_neq_undefined in E4.
  pose proof (coercionOf_coerce "sharedAccessKey" _ _ C3
                ltac:(apply coercedFields_elem; tauto) E4
                ltac:(by simpl_coerce)) as C4.
  destruct (neq_undefined (prop _ "deviceId")) eqn:E5; [|by eexists].
  pose proof (coercionOf_coerce "deviceId" _ _ C4
                ltac:(apply coercedFields_elem; tauto) E5
                ltac:(by simpl_coerce)) as C5.
  by eexists.
Qed.

(** The store and each record after [validate], for every argument. *)
Lemma validate_record (v : value) (h : heap) (l : loc) :
  dom (validate v h).2 = dom h
  ∧ coercionOf (h !!! l) ((validate v h).2 !!! l).
Proof.
  destruct v as [p|l0].
  { rewrite validate_prim. split; [done | apply coercionOf_refl]. }
  destruct (validate_store l0 h) as [->|(o' & -> & Hl & Hco)].
  { split; [done | apply coercionOf_refl]. }
  split.
  - rewrite dom_insert_L. apply elem_of_dom_2 in Hl. set_solver.
  - destruct (decide (l0 = l)) as [->|Hne].
    + by rewrite lookup_total_insert_eq.
    + rewrite lookup_total_insert_ne by done. apply coercionOf_refl.
Qed.

(** A record with the four required fields passes. *)
Lemma validate_ok_of_required (l : loc) (h : heap) :
  Forall (λ f, isMissing (VPrim (prop (h !!! l) f)) = false) requiredFields →
  ∃ h', validate (VObject l) h = (Ok tt, h').
Proof.
  intros Hreq. rewrite validate_cascade. cbv zeta.
  unfold requiredFields in Hreq.
  repeat (apply Forall_cons in Hreq as [-> Hreq]).
  destruct (neq_undefined _); eauto.
Qed.

(** X1.  [validate] returns normally exactly when its argument is a record
    whose four required fields are all present and not empty: nothing else
    about the record matters, not [deviceId], [host] or
    [connectionString]. *)
Theorem validate_ok_iff (v : value) (h : heap) :
  (∃ h', validate v h = (Ok tt, h'))
  ↔ ∃ l, v = VObject l
         ∧ Forall (λ f, isMissing (VPrim (prop (h !!! l) f)) = false)
             requiredFields.
Proof.
  split.
  - intros [h' Hv]. destruct v as [p|l].
    + by rewrite validate_prim in Hv.
    + exists l. split; [done|]. by apply validate_ok_fields in Hv as [? _].
  - intros (l & -> & Hreq). by apply validate_ok_of_required.
Qed.

(** A descriptor with the four required fields and nothing else passes;
    [{hostName: 1}] does not. *)
Lemma validate_ok_iff_witness :
  (∃ h', validate (VObject 1%positive) numericHost = (Ok tt, h'))
  ∧ ¬ (∃ h', validate (VObject 1%positive) hostOnly = (Ok tt, h')).
Proof.
  split.
  - apply (proj2 (validate_ok_iff (VObject 1%positive) numericHost)).
    exists 1%positive. split; [reflexivity | repeat constructor].
  - intros (l & [= <-] & Hreq)%(proj1 (validate_ok_iff (VObject 1%positive) hostOnly)).
    apply Forall_cons in Hreq as [_ Hreq]. apply Forall_cons in Hreq as [Hreq _].
    vm_compute in Hreq. discriminate Hreq.
Defined.

(** X2.  [validate] only coerces.  Whether it returns or throws, every
    property of every record holds afterwards what it held before or the
    string of what it held before; so a property that holds a string is
    never changed, and a property that is absent is never added. *)
Theorem validate_only_coerces (v : value) (h : heap) (l : loc) (k : string) :
  let h' := (validate v h).2 in
  ((h' !!! l) !! k = (h !!! l) !! k
   ∨ (h' !!! l) !! k = Some (PString (ToString (prop (h !!! l) k))))
  ∧ (∀ s, (h !!! l) !! k = Some (PString s) →
          (h' !!! l) !! k = Some (PString s))
  ∧ ((h !!! l) !! k = None → (h' !!! l) !! k = None).
Proof.
  cbv zeta. destruct (validate_record v h l) as [_ [Hdom Hk]].
  split; [|split].
  - destruct (Hk k) as [?|(_ & _ & ?)]; auto.
  - intros s Hs. destruct (Hk k) as [->|(_ & _ & ->)]; [done|].
    unfold prop. by rewrite Hs.
  - intros Hnone. apply not_elem_of_dom. rewrite Hdom.
    by apply not_elem_of_dom.
Qed.

(** On [{hostName: 1, entityPath: "p", ...}]: [hostName] becomes ["1"],
    [entityPath] stays ["p"], and there is still no [deviceId]. *)
Lemma validate_only_coerces_witness :
  let h' := (validate (VObject 1%positive) numericHost).2 in
  (h' !!! 1%positive) !! "entityPath" = Some (PString "p")
  ∧ (h' !!! 1%positive) !! "deviceId" = None.
Proof.
  cbv zeta. split.
  - apply (proj1 (proj2 (validate_only_coerces (VObject 1%positive) numericHost
                           1%positive "entityPath"))).
    reflexivity.
  - apply (proj2 (proj2 (validate_only_coerces (VObject 1%positive) numericHost
                           1%positive "deviceId"))).
    reflexivity.
Defined.

(** X3.  [validate] keeps the shape of the store: whether it returns or
    throws, the store has the same records and every record has the same
    set of properties as before. *)
Theorem validate_keeps_shape (v : value) (h : heap) :
  dom (validate v h).2 = dom h
  ∧ ∀ l, dom ((validate v h).2 !!! l) = dom (h !!! l).
Proof.
  split; [apply (validate_record v h 1%positive)|].
  intros l. apply (validate_record v h l).
Qed.

(** X4.  What a successful [validate] leaves: each required field holds a
    non-empty string, and [deviceId] holds a string unless it is absent,
    [undefined] or [null]. *)
Theorem validate_ok_leaves_strings (l : loc) (h h' : heap) :
  validate (VObject l) h = (Ok tt, h') →
  (∀ f, f ∈ requiredFields →
        ∃ s, s ≠ "" ∧ (h' !!! l) !! f = Some (PString s))
  ∧ (prop (h' !!! l) "deviceId" = PUndefined
     ∨ prop (h' !!! l) "deviceId" = PNull
     ∨ ∃ s, prop (h' !!! l) "deviceId" = PString s).
Proof.
  intros Hv. pose proof (validate_ok_validCoerced l h h' Hv) as Hvc.
  apply validate_ok_fields in Hv as (_ & Hf & _).
  unfold validCoerced in Hvc. apply andb_true_iff in Hvc as [Hreq Hdev].
  split.
  - intros f Hin. rewrite (Hf f Hin). eexists. split; [|done].
    rewrite forallb_forall in Hreq.
    specialize (Hreq f (proj1 (list_elem_of_In _ _) Hin)).
    unfold prop in Hreq. rewrite (Hf f Hin) in Hreq. simpl in Hreq.
    intros Hempty. rewrite Hempty in Hreq. discriminate Hreq.
  - destruct (prop (h' !!! l) "deviceId"); eauto; discriminate Hdev.
Qed.

(** After [validate] on [{hostName: 1, ...}], [hostName] holds a
    non-empty string. *)
Lemma validate_ok_leaves_strings_witness :
  validate (VObject 1%positive) numericHost = (Ok tt, numericHostValidated)
  ∧ ∃ s, s ≠ "" ∧ (numericHostValidated !!! 1%positive) !! "hostName"
                    = Some (PString s).
Proof.
  assert (validate (VObject 1%positive) numericHost
          = (Ok tt, numericHostValidated)) as Hv by (vm_compute; reflexivity).
  split; [exact Hv|].
  apply (proj1 (validate_ok_leaves_strings 1%positive numericHost
                  numericHostValidated Hv) "hostName").
  unfold requiredFields. apply elem_of_cons. by left.
Defined.

(** X5.  The errors of [validate]: the MissingParameterError or the
    TypeMismatchError of [config], thrown with the store untouched, or
    the MissingParameterError of a required field that is missing.  It
    never throws for [deviceId], and no property access in it throws. *)
Theorem validate_errors (v : value) (h h' : heap) (e : error) :
  validate v h = (Throw e, h') →
  ((e = MissingParameterError "config"
    ∨ e = TypeMismatchError "config" "object") ∧ h' = h
   ∧ ∃ p, v = VPrim p)
  ∨ (∃ l f, v = VObject l ∧ f ∈ requiredFields
            ∧ e = MissingParameterError f
            ∧ isMissing (VPrim (prop (h !!! l) f)) = true).
Proof.
  intros Hv. destruct v as [p|l].
  - left. rewrite validate_prim in Hv.
    destruct (isMissing (VPrim p)); injection Hv as <- <-; eauto.
  - right. apply validate_throw_inv in Hv
      as (earlier & f & later & Hsplit & -> & Hf & _).
    exists l, f. split; [done|]. split; [|done].
    rewrite Hsplit. apply elem_of_app. right. apply elem_of_cons. by left.
Qed.

(** [validate({hostName: 1})] throws for a required field. *)
Lemma validate_errors_witness :
  ∃ l f, VObject 1%positive = VObject l ∧ f ∈ requiredFields
         ∧ MissingParameterError "entityPath" = MissingParameterError f.
Proof.
  assert (validate (VObject 1%positive) hostOnly
          = (Throw (MissingParameterError "entityPath"), hostOnlyCoerced))
    as Hv by (vm_compute; reflexivity).
  destruct (validate_errors (VObject 1%positive) hostOnly hostOnlyCoerced
              (MissingParameterError "entityPath") Hv)
    as [(_ & _ & p & Hp) | (l & f & Hl & Hin & He & _)].
  - discriminate Hp.
  - by exists l, f.
Defined.

(* ------------------------------------------------------------------ *)
(** ** Further properties of [create] and of the conversion *)

(** The first element of [s.split(".")]: there is one, it has no ["."], and
    [s] is that element followed by nothing or by a ["."] and a rest. *)
Lemma split_head (s : string) :
  ∃ a xs rest,
    split "." s = a :: xs ∧ noDot a ∧ s = a ++ rest
    ∧ (rest = "" ∨ ∃ r, rest = "." ++ r).
Proof.
  unfold noDot. induction s as [|c s (a & xs & rest & IH & Hno & Hs & Hrest)].
  - exists "", [], "". simpl. tauto.
  - simpl. destruct (Ascii.eqb_spec c ".") as [->|Hc].
    + exists "", (split "." s), (String "." s). simpl.
      split; [done|]. split; [tauto|]. split; [done|]. right. by exists s.
    + rewrite IH. exists (String c a), xs, rest. simpl.
      split; [done|]. split; [|split; [by rewrite Hs | done]].
      intros [?|?]; [congruence | tauto].
Qed.

Lemma truthy_not_missing (p : prim) :
  truthy p = true → isMissing (VPrim p) = false.
Proof. destruct p; simpl; try done. by destruct (String.eqb s ""). Qed.

Lemma not_missing_string (m : ParsedOutput) (k : string) :
  isMissing (VPrim (parsedProp m k)) = false →
  ∃ s, m !! k = Some s ∧ s ≠ "" ∧ parsedProp m k = PString s.
Proof.
  unfold parsedProp. destruct (m !! k) as [s|]; simpl; [|done].
  destruct (String.eqb_spec s ""); [done|]. eauto.
Qed.

(** X6.  The [host] of the descriptor [create] returns is always a string
    with no ["."] in it, and the tokenizer's [HostName], when there is one,
    is that string followed by nothing or by a ["."] and a rest: [host] is
    the first label of [hostName], never [undefined]. *)
Theorem create_host_shape (parse : string → ParsedOutput)
    (connectionString path : prim) (h : heap) :
  isMissing (VPrim connectionString) = false →
  ∃ l h' host,
    create parse connectionString path h = (Ok (VObject l), h')
    ∧ (h' !!! l) !! "host" = Some (PString host)
    ∧ noDot host
    ∧ ∀ HostName, parse (ToString connectionString) !! "HostName" = Some HostName →
        ∃ rest, HostName = host ++ rest ∧ (rest = "" ∨ ∃ r, rest = "." ++ r).
Proof.
  intros Hcs.
  destruct (create_lookup parse connectionString path h Hcs) as (l & h' & Hc & Hl).
  assert (createdConfig parse connectionString path !! "host"
          = Some match parse (ToString connectionString) !! "HostName" with
                 | Some HostName =>
                     if truthy (PString HostName)
                     then element (split "." HostName) 0
                     else PString ""
                 | None => PString ""
                 end) as Hhost by reflexivity.
  rewrite <- Hl in Hhost.
  destruct (parse (ToString connectionString) !! "HostName") as [hn|] eqn:E.
  - destruct (split_head hn) as (a & xs & rest & Hsplit & Hno & Hhn & Hrest).
    destruct (truthy (PString hn)) eqn:Et.
    + exists l, h', a. rewrite Hsplit in Hhost.
      split; [done|]. split; [done|]. split; [done|].
      intros ? [= <-]. eauto.
    + exists l, h', "". split; [done|]. split; [done|].
      split; [by intros []|]. intros ? [= <-]. exists "".
      simpl in Et. destruct (String.eqb_spec hn ""); [auto | done].
  - exists l, h', "". split; [done|]. split; [done|]. split; [by intros []|].
    discriminate.
Qed.

(** For [HostName=a.b.c] the host is the no-dot prefix ["a"]. *)
Lemma create_host_shape_witness :
  ∃ l h' host,
    create parseConnectionString
      (PString "HostName=a.b.c;SharedAccessKeyName=k;SharedAccessKey=s")
      PUndefined ∅ = (Ok (VObject l), h')
    ∧ (h' !!! l) !! "host" = Some (PString host)
    ∧ ∃ rest, "a.b.c" = host ++ rest.
Proof.
  destruct (create_host_shape parseConnectionString
              (PString "HostName=a.b.c;SharedAccessKeyName=k;SharedAccessKey=s")
              PUndefined ∅ eq_refl) as (l & h' & host & Hc & Hhost & _ & Hpre).
  destruct (Hpre "a.b.c") as (rest & Hrest & _); [vm_compute; reflexivity|].
  exists l, h', host. split; [done|]. split; [done|]. by exists rest.
Defined.

(** [validate] on the descriptor [create] has made, when the string gave
    the three keys: it succeeds, [entityPath] becomes the string of the
    path, and every other property is as [create] set it. *)
Lemma create_validate_ok (parse : string → ParsedOutput)
    (connectionString path : prim) (h : heap) :
  let parsedCS := parse (ToString connectionString) in
  isMissing (VPrim connectionString) = false →
  isMissing (VPrim (parsedProp parsedCS "HostName")) = false →
  isMissing (VPrim (parsedProp parsedCS "SharedAccessKeyName")) = false →
  isMissing (VPrim (parsedProp parsedCS "SharedAccessKey")) = false →
  ∃ l h1 h2,
    create parse connectionString path h = (Ok (VObject l), h1)
    ∧ h1 !!! l = createdConfig parse connectionString path
    ∧ l ∈ dom h1
    ∧ validate (VObject l) h1 = (Ok tt, h2)
    ∧ dom h2 = dom h1
    ∧ (h2 !!! l) !! "entityPath"
        = Some (PString (if truthy path then ToString path
                         else "messages/events"))
    ∧ ∀ k, k ≠ "entityPath" → (h2 !!! l) !! k = (h1 !!! l) !! k.
Proof.
  intros parsedCS Hcs Hhn Hkn Hkey.
  destruct (create_lookup parse connectionString path h Hcs)
    as (l & h1 & Hc & Hl).
  assert (l ∈ dom h1) as Hdom.
  { rewrite create_run, Hcs in Hc. injection Hc as <- <-.
    rewrite dom_insert_L. set_solver. }
  assert (isMissing (VPrim (prop (h1 !!! l) "entityPath")) = false) as Hpath.
  { rewrite Hl. change (prop (createdConfig parse connectionString path) "entityPath")
      with (if negb (truthy path) then PString "messages/events" else path).
    destruct (truthy path) eqn:E; [by apply truthy_not_missing | done]. }
  destruct (validate_ok_of_required l h1) as [h2 Hv].
  { rewrite Hl in Hpath |- *. by repeat constructor. }
  exists l, h1, h2. split; [done|]. split; [done|]. split; [done|].
  split; [done|].
  pose proof (validate_record (VObject l) h1 l) as [Hd [_ Hk]].
  rewrite Hv in Hd, Hk. cbn [snd] in Hd, Hk. split; [done|].
  pose proof Hv as (_ & Hf & _)%validate_ok_fields. split.
  - rewrite (Hf "entityPath") by (apply list_elem_of_In; simpl; tauto).
    rewrite Hl. change (prop (createdConfig parse connectionString path) "entityPath")
      with (if negb (truthy path) then PString "messages/events" else path).
    by destruct (truthy path).
  - intros k Hne. destruct (Hk k) as [?|(Hin & Hnu & ->)]; [done|].
    rewrite Hl in Hnu |- *.
    apply not_missing_string in Hhn as (? & _ & _ & Ehn).
    apply not_missing_string in Hkn as (? & _ & _ & Ekn).
    apply not_missing_string in Hkey as (? & _ & _ & Ekey).
    apply coercedFields_elem in Hin as [-> | [-> | [-> | [-> | ->]]]];
      try done.
    + change (prop (createdConfig parse connectionString path) "hostName")
        with (parsedProp parsedCS "HostName").
      change (createdConfig parse connectionString path !! "hostName")
        with (Some (parsedProp parsedCS "HostName")).
      by rewrite Ehn.
    + change (prop (createdConfig parse connectionString path) "sharedAccessKeyName")
        with (parsedProp parsedCS "SharedAccessKeyName").
      change (createdConfig parse connectionString path !! "sharedAccessKeyName")
        with (Some (parsedProp parsedCS "SharedAccessKeyName")).
      by rewrite Ekn.
    + change (prop (createdConfig parse connectionString path) "sharedAccessKey")
        with (parsedProp parsedCS "SharedAccessKey").
      change (createdConfig parse connectionString path !! "sharedAccessKey")
        with (Some (parsedProp parsedCS "SharedAccessKey")).
      by rewrite Ekey.
    + change (prop (createdConfig parse connectionString path) "deviceId")
        with (parsedProp parsedCS "DeviceId") in *.
      change (createdConfig parse connectionString path !! "deviceId")
        with (Some (parsedProp parsedCS "DeviceId")).
      unfold parsedProp in *. by destruct (parsedCS !! "DeviceId").
Qed.

(** X7.  [validate] on the descriptor [create] returns.  What decides is
    what the tokenizer found: without a non-empty [HostName] the call
    throws for [hostName] and changes nothing; with it but without
    [SharedAccessKeyName], or then without [SharedAccessKey], it throws for
    that field; it never throws for [entityPath], which [create] has
    filled in.  With the three keys it succeeds, [entityPath] becomes the
    string of the path given, and every other property is as [create] set
    it. *)
Theorem create_then_validate (parse : string → ParsedOutput)
    (connectionString path : prim) (h : heap) :
  let parsedCS := parse (ToString connectionString) in
  let missing := λ key, isMissing (VPrim (parsedProp parsedCS key)) in
  isMissing (VPrim connectionString) = false →
  ∃ l h1,
    create parse connectionString path h = (Ok (VObject l), h1)
    ∧ (missing "HostName" = true →
         validate (VObject l) h1 = (Throw (MissingParameterError "hostName"), h1))
    ∧ (missing "HostName" = false → missing "SharedAccessKeyName" = true →
         ∃ h2, validate (VObject l) h1
               = (Throw (MissingParameterError "sharedAccessKeyName"), h2))
    ∧ (missing "HostName" = false → missing "SharedAccessKeyName" = false →
       missing "SharedAccessKey" = true →
         ∃ h2, validate (VObject l) h1
               = (Throw (MissingParameterError "sharedAccessKey"), h2))
    ∧ (missing "HostName" = false → missing "SharedAccessKeyName" = false →
       missing "SharedAccessKey" = false →
         ∃ h2, validate (VObject l) h1 = (Ok tt, h2)
               ∧ (h2 !!! l) !! "entityPath"
                   = Some (PString (if truthy path then ToString path
                                    else "messages/events"))
               ∧ ∀ k, k ≠ "entityPath" → (h2 !!! l) !! k = (h1 !!! l) !! k).
Proof.
  intros parsedCS missing Hcs.
  destruct (create_lookup parse connectionString path h Hcs)
    as (l & h1 & Hc & Hl).
  exists l, h1. split; [done|].
  assert (isMissing (VPrim (prop (h1 !!! l) "entityPath")) = false) as Hpath.
  { rewrite Hl. change (prop (createdConfig parse connectionString path) "entityPath")
      with (if negb (truthy path) then PString "messages/events" else path).
    destruct (truthy path) eqn:E; [by apply truthy_not_missing | done]. }
  assert (prop (h1 !!! l) "hostName" = parsedProp parsedCS "HostName")
    as Ehn by (by rewrite Hl).
  assert (prop (h1 !!! l) "sharedAccessKeyName"
          = parsedProp parsedCS "SharedAccessKeyName") as Ekn by (by rewrite Hl).
  assert (prop (h1 !!! l) "sharedAccessKey"
          = parsedProp parsedCS "SharedAccessKey") as Ekey by (by rewrite Hl).
  unfold missing. rewrite <- Ehn, <- Ekn, <- Ekey.
  split; [|split; [|split]].
  - intros H1. rewrite validate_cascade. cbv zeta. by rewrite H1.
  - intros H1 H2. rewrite validate_cascade. cbv zeta.
    rewrite H1, Hpath, H2. eauto.
  - intros H1 H2 H3. rewrite validate_cascade. cbv zeta.
    rewrite H1, Hpath, H2, H3. eauto.
  - intros H1 H2 H3. rewrite Ehn in H1. rewrite Ekn in H2. rewrite Ekey in H3.
    destruct (create_validate_ok parse connectionString path h Hcs H1 H2 H3)
      as (l' & h1' & h2 & Hc' & _ & _ & Hv & _ & Hpath' & Hk).
    rewrite Hc in Hc'. injection Hc' as <- <-. eauto.
Qed.

(** With the three keys and the path 5, [entityPath] is ["5"] after
    [validate]; without [HostName] the call throws for [hostName]. *)
Lemma create_then_validate_witness :
  (∃ l h1 h2,
     create parseConnectionString
       (PString "HostName=a.b.c;SharedAccessKeyName=k;SharedAccessKey=s")
       (PNum 5) ∅ = (Ok (VObject l), h1)
     ∧ validate (VObject l) h1 = (Ok tt, h2)
     ∧ (h2 !!! l) !! "entityPath" = Some (PString "5"))
  ∧ (∃ l h1,
       create parseConnectionString (PString "SharedAccessKeyName=k")
         PUndefined ∅ = (Ok (VObject l), h1)
       ∧ validate (VObject l) h1
           = (Throw (MissingParameterError "hostName"), h1)).
Proof.
  split.
  - destruct (create_then_validate parseConnectionString
                (PString "HostName=a.b.c;SharedAccessKeyName=k;SharedAccessKey=s")
                (PNum 5) ∅ eq_refl) as (l & h1 & Hc & _ & _ & _ & Hok).
    destruct Hok as (h2 & Hv & Hpath & _);
      [vm_compute; reflexivity | vm_compute; reflexivity
      | vm_compute; reflexivity |].
    by exists l, h1, h2.
  - destruct (create_then_validate parseConnectionString
                (PString "SharedAccessKeyName=k")
                PUndefined ∅ eq_refl) as (l & h1 & Hc & Hthrow & _).
    exists l, h1. split; [done|]. apply Hthrow. vm_compute. reflexivity.
Defined.

(** X8.  From the connection string to the record of the sibling
    configuration.  When the tokenizer finds non-empty [HostName],
    [SharedAccessKeyName] and [SharedAccessKey], the conversion of the
    descriptor [create] returns hands the factory a record, other than the
    descriptor, whose [host] is the whole [HostName], whose [endpoint] is
    ["sb://" + HostName + "/"], whose [connectionString] is the string
    given, and whose [entityPath] is the string of the path given or
    ["messages/events"]; the descriptor keeps its own [host]. *)
Theorem create_then_convert (parse : string → ParsedOutput)
    (factory : value → M value)
    (connectionString path : prim) (h : heap) (HostName name key : string) :
  let parsedCS := parse (ToString connectionString) in
  isMissing (VPrim connectionString) = false →
  parsedCS !! "HostName" = Some HostName → HostName ≠ "" →
  parsedCS !! "SharedAccessKeyName" = Some name → name ≠ "" →
  parsedCS !! "SharedAccessKey" = Some key → key ≠ "" →
  ∃ l h1 h2 l' (config : object),
    create parse connectionString path h = (Ok (VObject l), h1)
    ∧ convertToEventHubConnectionConfig factory (VObject l) h1
        = factory (VObject l') (<[l' := config]> h2)
    ∧ l' ≠ l ∧ h2 !! l' = None
    ∧ config !! "host" = Some (PString HostName)
    ∧ config !! "endpoint" = Some (PString ("sb://" ++ HostName ++ "/"))
    ∧ config !! "connectionString" = Some (PString (ToString connectionString))
    ∧ config !! "entityPath"
        = Some (PString (if truthy path then ToString path
                         else "messages/events"))
    ∧ config !! "sharedAccessKeyName" = Some (PString name)
    ∧ config !! "sharedAccessKey" = Some (PString key)
    ∧ (h2 !!! l) !! "host" = (h1 !!! l) !! "host".
Proof.
  intros parsedCS Hcs Ehn Hhn Ekn Hkn Ekey Hkey.
  assert (∀ k s, parsedCS !! k = Some s → s ≠ "" →
            parsedProp parsedCS k = PString s
            ∧ isMissing (VPrim (parsedProp parsedCS k)) = false) as Hpresent.
  { intros k s Hk Hs. unfold parsedProp. rewrite Hk. simpl.
    split; [done|]. by destruct (String.eqb_spec s ""). }
  destruct (Hpresent _ _ Ehn Hhn) as [Phn Mhn].
  destruct (Hpresent _ _ Ekn Hkn) as [Pkn Mkn].
  destruct (Hpresent _ _ Ekey Hkey) as [Pkey Mkey].
  destruct (create_validate_ok parse connectionString path h Hcs Mhn Mkn Mkey)
    as (l & h1 & h2 & Hc & Hl & Hdom & Hv & Hdom2 & Hpath & Hk).
  exists l, h1, h2, (fresh (dom h2)), (connectionConfigOf (h2 !!! l)).
  split; [done|]. split; [by rewrite convert_object, Hv|].
  split; [intros Heq; apply (is_fresh (dom h2)); rewrite Heq, Hdom2; done|].
  split; [apply not_elem_of_dom, is_fresh|].
  assert (∀ k, k ≠ "entityPath" →
            prop (h2 !!! l) k = prop (createdConfig parse connectionString path) k)
    as Hprop.
  { intros k Hne. unfold prop. by rewrite (Hk k Hne), Hl. }
  assert (prop (h2 !!! l) "hostName" = PString HostName) as Hhost.
  { rewrite Hprop by done. exact Phn. }
  unfold connectionConfigOf.
  repeat split.
  - change (Some (prop (h2 !!! l) "hostName") = Some (PString HostName)).
    by rewrite Hhost.
  - change (Some (PString ("sb://" ++ ToString (prop (h2 !!! l) "hostName") ++ "/"))
            = Some (PString ("sb://" ++ HostName ++ "/"))).
    by rewrite Hhost.
  - change (Some (prop (h2 !!! l) "connectionString")
            = Some (PString (ToString connectionString))).
    by rewrite Hprop.
  - change (Some (prop (h2 !!! l) "entityPath")
            = Some (PString (if truthy path then ToString path
                             else "messages/events"))).
    unfold prop. by rewrite Hpath.
  - change (Some (prop (h2 !!! l) "sharedAccessKeyName") = Some (PString name)).
    rewrite Hprop by done. f_equal. exact Pkn.
  - change (Some (prop (h2 !!! l) "sharedAccessKey") = Some (PString key)).
    rewrite Hprop by done. f_equal. exact Pkey.
  - by apply Hk.
Qed.

(** The spec's connection string, end to end: the descriptor has the
    short [host], the converted record the whole host name. *)
Lemma create_then_convert_witness :
  ∃ l h1 h2 l' (config : object),
    create parseConnectionString
      (PString "HostName=a.b.c;SharedAccessKeyName=k;SharedAccessKey=s")
      PUndefined ∅ = (Ok (VObject l), h1)
    ∧ convertToEventHubConnectionConfig createFromConnectionConfig
        (VObject l) h1 = (Ok (VObject l'), <[l' := config]> h2)
    ∧ config !! "host" = Some (PString "a.b.c")
    ∧ config !! "endpoint" = Some (PString "sb://a.b.c/")
    ∧ config !! "entityPath" = Some (PString "messages/events").
Proof.
  assert (parseConnectionString
            "HostName=a.b.c;SharedAccessKeyName=k;SharedAccessKey=s"
            !! "HostName" = Some "a.b.c") as Ehn by (vm_compute; reflexivity).
  assert (parseConnectionString
            "HostName=a.b.c;SharedAccessKeyName=k;SharedAccessKey=s"
            !! "SharedAccessKeyName" = Some "k") as Ekn by (vm_compute; reflexivity).
  assert (parseConnectionString
            "HostName=a.b.c;SharedAccessKeyName=k;SharedAccessKey=s"
            !! "SharedAccessKey" = Some "s") as Ekey by (vm_compute; reflexivity).
  destruct (create_then_convert parseConnectionString createFromConnectionConfig
              (PString "HostName=a.b.c;SharedAccessKeyName=k;SharedAccessKey=s")
              PUndefined ∅ "a.b.c" "k" "s" eq_refl
              Ehn ltac:(discriminate) Ekn ltac:(discriminate)
              Ekey ltac:(discriminate))
    as (l & h1 & h2 & l' & config & Hc & Hconv & _ & _ & Hhost & Hend & _
        & Hpath & _).
  exists l, h1, h2, l', config.
  split; [exact Hc|]. split; [exact Hconv|]. split; [exact Hhost|].
  split; [exact Hend | exact Hpath].
Defined.

(** A field that has been coerced passes the missing-parameter test again
    and is not changed by a second coercion. *)
Lemma coerced_not_missing (p : prim) :
  isMissing (VPrim p) = false →
  isMissing (VPrim (PString (ToString p))) = false.
Proof. intros. by apply nonEmptyString_not_missing, ToString_not_empty. Qed.

(** A throwing [validate], run again on the store it left, throws the
    same error and leaves that store. *)
Lemma validate_throw_again (l : loc) (h h' : heap) (e : error) :
  validate (VObject l) h = (Throw e, h') →
  validate (VObject l) h' = (Throw e, h').
Proof.
  rewrite validate_cascade. cbv zeta.
  destruct (isMissing (VPrim (prop _ "hostName"))) eqn:E1.
  { intros [= <- <-]. rewrite validate_cascade. cbv zeta. by rewrite E1. }
  destruct (isMissing (VPrim (prop _ "entityPath"))) eqn:E2.
  { intros [= <- <-]. rewrite validate_cascade. cbv zeta.
    rewrite lookup_total_insert_eq. simpl_coerce.
    rewrite (coerced_not_missing _ E1), E2.
    rewrite (coerce_string "hostName" (ToString (prop (h !!! l) "hostName")))
      by (by simpl_coerce).
    by rewrite insert_insert_eq. }
  destruct (isMissing (VPrim (prop _ "sharedAccessKeyName"))) eqn:E3.
  { intros [= <- <-]. rewrite validate_cascade. cbv zeta.
    rewrite lookup_total_insert_eq. simpl_coerce.
    rewrite (coerced_not_missing _ E1), (coerced_not_missing _ E2), E3.
    rewrite (coerce_string "hostName" (ToString (prop (h !!! l) "hostName")))
      by (by simpl_coerce).
    rewrite (coerce_string "entityPath" (ToString (prop (h !!! l) "entityPath")))
      by (by simpl_coerce).
    by rewrite insert_insert_eq. }
  destruct (isMissing (VPrim (prop _ "sharedAccessKey"))) eqn:E4.
  { intros [= <- <-]. rewrite validate_cascade. cbv zeta.
    rewrite lookup_total_insert_eq. simpl_coerce.
    rewrite (coerced_not_missing _ E1), (coerced_not_missing _ E2),
      (coerced_not_missing _ E3), E4.
    rewrite (coerce_string "hostName" (ToString (prop (h !!! l) "hostName")))
      by (by simpl_coerce).
    rewrite (coerce_string "entityPath" (ToString (prop (h !!! l) "entityPath")))
      by (by simpl_coerce).
    rewrite (coerce_string "sharedAccessKeyName"
               (ToString (prop (h !!! l) "sharedAccessKeyName")))
      by (by simpl_coerce).
    by rewrite insert_insert_eq. }
  by destruct (neq_undefined _).
Qed.

(** X9.  Calling [validate] twice is calling it once, for every argument
    and also when it throws: the second call gives the outcome of the
    first, the same error for the same field, and leaves the store the
    first call left. *)
Theorem validate_twice (v : value) (h : heap) :
  validate v (validate v h).2 = validate v h.
Proof.
  destruct v as [p|l]; [by rewrite !validate_prim|].
  destruct (validate (VObject l) h) as [[[]|e] h'] eqn:Hv; cbn [snd].
  - by apply validate_validCoerced, (validate_ok_validCoerced l h).
  - by apply (validate_throw_again l h).
Qed.

(** X10.  The record the conversion builds.  For a descriptor that passes
    validation the factory gets a new record, at a location the store did
    not use, with six properties: [hostName] and [deviceId] are not
    carried over.  Its [sharedAccessKey], [sharedAccessKeyName],
    [entityPath], [host] and [endpoint] hold non-empty strings;
    [connectionString], which [validate] does not check, holds whatever
    the descriptor held, [undefined] if it had none. *)
Theorem convert_record_shape
    (factory : value → M value) (l : loc) (h h1 : heap) :
  validate (VObject l) h = (Ok tt, h1) →
  ∃ l' (config : object),
    convertToEventHubConnectionConfig factory (VObject l) h
      = factory (VObject l') (<[l' := config]> h1)
    ∧ l' ≠ l ∧ l' ∉ dom h
    ∧ dom config
        = list_to_set [ "sharedAccessKey"; "sharedAccessKeyName"; "entityPath";
                        "host"; "endpoint"; "connectionString" ]
    ∧ Forall (λ k, ∃ s, s ≠ "" ∧ config !! k = Some (PString s))
        [ "sharedAccessKey"; "sharedAccessKeyName"; "entityPath";
          "host"; "endpoint" ]
    ∧ config !! "connectionString" = Some (prop (h !!! l) "connectionString").
Proof.
  intros Hv.
  exists (fresh (dom h1)), (connectionConfigOf (h1 !!! l)).
  split; [by rewrite convert_object, Hv|].
  pose proof (validate_record (VObject l) h l) as [Hdom _].
  rewrite Hv in Hdom. cbn [snd] in Hdom.
  pose proof Hv as (Hreq & Hf & _)%validate_ok_fields.
  assert (l ∈ dom h) as Hl.
  { apply elem_of_dom. rewrite (lookup_total_present l "hostName"); [done|].
    apply neq_undefined_present, not_missing_neq_undefined.
    by apply Forall_cons in Hreq as [? _]. }
  split; [intros Heq; apply (is_fresh (dom h1)); by rewrite Heq, Hdom|].
  split; [rewrite <- Hdom; apply is_fresh|].
  split; [unfold connectionConfigOf; by rewrite dom_list_to_map_L|].
  assert (∀ f, f ∈ requiredFields →
            ∃ s, s ≠ "" ∧ prop (h1 !!! l) f = PString s) as Hstr.
  { intros f Hin. unfold prop at 1. rewrite (Hf f Hin). simpl.
    eexists. split; [|done]. intros Hempty.
    pose proof (ToString_not_empty (prop (h !!! l) f)) as Hne.
    rewrite Hempty in Hne. simpl in Hne.
    assert (isMissing (VPrim (prop (h !!! l) f)) = false) as Hm
      by (by eapply Forall_forall in Hreq).
    by specialize (Hne Hm). }
  assert (∀ f, f ∈ requiredFields ↔
            f = "hostName" ∨ f = "entityPath"
            ∨ f = "sharedAccessKeyName" ∨ f = "sharedAccessKey") as Hin.
  { intros f. unfold requiredFields. rewrite !elem_of_cons, elem_of_nil. tauto. }
  destruct (Hstr "sharedAccessKey") as (s1 & N1 & E1); [apply Hin; tauto|].
  destruct (Hstr "sharedAccessKeyName") as (s2 & N2 & E2); [apply Hin; tauto|].
  destruct (Hstr "entityPath") as (s3 & N3 & E3); [apply Hin; tauto|].
  destruct (Hstr "hostName") as (s4 & N4 & E4); [apply Hin; tauto|].
  split.
  - unfold connectionConfigOf. repeat constructor.
    + exists s1. split; [done|]. by rewrite E1.
    + exists s2. split; [done|]. by rewrite E2.
    + exists s3. split; [done|]. by rewrite E3.
    + exists s4. split; [done|]. by rewrite E4.
    + eexists. split; [|reflexivity]. discriminate.
  - pose proof (validate_unassigned (VObject l) h l "connectionString") as Hcs.
    rewrite Hv in Hcs. cbn [snd] in Hcs.
    change (Some (prop (h1 !!! l) "connectionString")
            = Some (prop (h !!! l) "connectionString")).
    unfold prop. rewrite Hcs; [done|]. left. by apply not_coerced_field.
Qed.

(** The descriptor of the examples with [hostName: 1] has no
    [connectionString]: the conversion goes through, the record built has
    no [deviceId] and an [undefined] [connectionString]. *)
Lemma convert_record_shape_witness :
  ∃ l' (config : object),
    convertToEventHubConnectionConfig createFromConnectionConfig
      (VObject 1%positive) numericHost
      = (Ok (VObject l'), <[l' := config]> numericHostValidated)
    ∧ l' ≠ 1%positive
    ∧ config !! "deviceId" = None
    ∧ config !! "connectionString" = Some PUndefined.
Proof.
  assert (validate (VObject 1%positive) numericHost
          = (Ok tt, numericHostValidated)) as Hv by (vm_compute; reflexivity).
  destruct (convert_record_shape createFromConnectionConfig 1%positive
              numericHost numericHostValidated Hv)
    as (l' & config & Hc & Hne & _ & Hdom & _ & Hcs).
  exists l', config. split; [exact Hc|]. split; [exact Hne|].
  split; [|exact Hcs].
  apply not_elem_of_dom. rewrite Hdom, elem_of_list_to_set.
  rewrite !elem_of_cons, elem_of_nil.
  intros [H|[H|[H|[H|[H|[H|[]]]]]]]; discriminate H.
Defined.
